(** * SQLQueryTool: the SQL safety gate and execution engine

    A shallow embedding of [src/sql_query_tool.py] (class [SQLQueryTool]:
    [__init__], [validate_sql], [execute_query]) and the properties of it
    that the specification states.

    Modelling choices.
    - A Python [str] is a [list ascii].  The embedding covers statements made
      of ASCII characters: [upper] is Python's [str.upper] on code points
      below 128 and [isspace] is Python's [str.isspace] (also the class [\s]
      of [re] on [str] patterns) on code points below 128.
    - Python integers are [Z].
    - A regular expression is kept as its syntax tree; [Re.source] prints the
      tree back to the pattern text that the source file holds.
    - The data store (the [sqlite3] driver) is a parameter of the executor:
      a value of type [store] says whether connecting raises and what
      running a statement yields.  Exceptions are data ([exn]).
    - Every call of the driver is recorded in a trace of [event]s, returned
      next to the outcome. *)

From Stdlib Require Import List Bool Ascii String ZArith QArith Lia.
From Stdlib Require Import DecimalString.
Import ListNotations.

Local Open Scope list_scope.
Local Open Scope bool_scope.

(** ** Python strings *)

Definition str := list ascii.

(** A string literal of the source. *)
Definition py (s : string) : str := list_ascii_of_string s.

Module Py.

(** [str.upper], character by character: a..z go to A..Z. *)
Definition upper_char (c : ascii) : ascii :=
  let n := nat_of_ascii c in
  if (97 <=? n)%nat && (n <=? 122)%nat then ascii_of_nat (n - 32) else c.

Definition upper (s : str) : str := map upper_char s.

(** [str.isspace] of one character: tab, line feed, vertical tab, form feed,
    carriage return, the four separators 28..31, and the space. *)
Definition isspace (c : ascii) : bool :=
  let n := nat_of_ascii c in
  ((9 <=? n)%nat && (n <=? 13)%nat) || ((28 <=? n)%nat && (n <=? 32)%nat).

Fixpoint dropwhile (p : ascii -> bool) (s : str) : str :=
  match s with
  | [] => []
  | c :: s' => if p c then dropwhile p s' else s
  end.

Definition mem (c : ascii) (chars : str) : bool :=
  existsb (Ascii.eqb c) chars.

(** [s.lstrip()] and [s.rstrip()] without argument: white space goes. *)
Definition lstrip (s : str) : str := dropwhile isspace s.
Definition rstrip (s : str) : str := rev (dropwhile isspace (rev s)).

(** [s.strip()]. *)
Definition strip (s : str) : str := lstrip (rstrip s).

(** [s.rstrip(chars)]: every trailing character that is in [chars] goes. *)
Definition rstrip_chars (chars : str) (s : str) : str :=
  rev (dropwhile (fun c => mem c chars) (rev s)).

(** [s.startswith(prefix)]. *)
Fixpoint startswith (prefix s : str) : bool :=
  match prefix, s with
  | [], _ => true
  | _ :: _, [] => false
  | p :: prefix', c :: s' => Ascii.eqb p c && startswith prefix' s'
  end.

(** [sub in s]. *)
Fixpoint contains (sub s : str) : bool :=
  startswith sub s ||
  match s with
  | [] => false
  | _ :: s' => contains sub s'
  end.

(** [s.count(c)] for a one-character string [c]. *)
Fixpoint count (c : ascii) (s : str) : Z :=
  match s with
  | [] => 0
  | d :: s' => (if Ascii.eqb d c then 1 else 0) + count c s'
  end.

(** [str(n)] of an integer. *)
Definition str_of_int (n : Z) : str :=
  py (NilZero.string_of_int (Z.to_int n)).

Fixpoint eqb (a b : str) : bool :=
  match a, b with
  | [], [] => true
  | c :: a', d :: b' => Ascii.eqb c d && eqb a' b'
  | _, _ => false
  end.

End Py.

(** ** The fragment of Python's [re] that the patterns of the tool use *)

Module Re.

(** One character class: a plain character, an escaped punctuation
    character ([\(], [\*]), [\s] or [\d]. *)
Inductive cls : Type :=
| Chr (c : ascii)
| Esc (c : ascii)
| Space
| Digit.

Inductive quant : Type :=
| Once
| Plus
| Star.

Record regex : Type := mk_regex {
  anchored : bool;               (* a leading [^] *)
  items : list (cls * quant)
}.

Definition isdigit (c : ascii) : bool :=
  let n := nat_of_ascii c in (48 <=? n)%nat && (n <=? 57)%nat.

Definition cls_match (k : cls) (c : ascii) : bool :=
  match k with
  | Chr d => Ascii.eqb d c
  | Esc d => Ascii.eqb d c
  | Space => Py.isspace c
  | Digit => isdigit c
  end.

(** Zero or more characters of class [k], then the continuation [rest]. *)
Fixpoint star (k : cls) (rest : str -> bool) (s : str) : bool :=
  rest s ||
  match s with
  | [] => false
  | c :: s' => cls_match k c && star k rest s'
  end.

(** Does the item sequence match a prefix of [s]?  All ways of splitting
    the text between the items are tried, as the backtracking matcher of
    [re] does. *)
Fixpoint match_here (its : list (cls * quant)) (s : str) : bool :=
  match its with
  | [] => true
  | (k, Once) :: its' =>
      match s with
      | [] => false
      | c :: s' => cls_match k c && match_here its' s'
      end
  | (k, Plus) :: its' =>
      match s with
      | [] => false
      | c :: s' => cls_match k c && star k (match_here its') s'
      end
  | (k, Star) :: its' => star k (match_here its') s
  end.

Fixpoint search_from (its : list (cls * quant)) (s : str) : bool :=
  match_here its s ||
  match s with
  | [] => false
  | _ :: s' => search_from its s'
  end.

(** [re.search(pattern, s)] as a truth value. *)
Definition search (r : regex) (s : str) : bool :=
  if anchored r then match_here (items r) s else search_from (items r) s.

(** The pattern text. *)
Definition cls_source (k : cls) : str :=
  match k with
  | Chr c => [c]
  | Esc c => ["\"%char; c]
  | Space => py "\s"
  | Digit => py "\d"
  end.

Definition quant_source (q : quant) : str :=
  match q with
  | Once => []
  | Plus => py "+"
  | Star => py "*"
  end.

Definition source (r : regex) : str :=
  (if anchored r then py "^" else []) ++
  flat_map (fun it => cls_source (fst it) ++ quant_source (snd it)) (items r).

(** Builders for the patterns below. *)
Definition lits (w : str) : list (cls * quant) :=
  map (fun c => (Chr c, Once)) w.
Definition lit (s : string) : list (cls * quant) := lits (py s).
Definition sp1 : list (cls * quant) := [(Space, Plus)].
Definition sp0 : list (cls * quant) := [(Space, Star)].
Definition unanchored (its : list (cls * quant)) : regex := mk_regex false its.

End Re.

(** ** The tool *)

Record SQLQueryTool : Type := mk_tool {
  db_path : str;
  allowed_patterns : list Re.regex;
  forbidden_patterns : list Re.regex;
  max_results : Z
}.

(** [__init__], once the path of the store is known and the file exists
    (the search for the file and [FileNotFoundError] are start-up code). *)
Definition init (path : str) : SQLQueryTool :=
  {| db_path := path;
     allowed_patterns :=
       [ Re.mk_regex true (Re.lit "SELECT" ++ Re.sp1);
         Re.unanchored (Re.sp1 ++ Re.lit "FROM" ++ Re.sp1 ++ Re.lit "transactions" ++ Re.sp0);
         Re.unanchored (Re.sp1 ++ Re.lit "FROM" ++ Re.sp1 ++ Re.lit "client_summary" ++ Re.sp0);
         Re.unanchored (Re.sp1 ++ Re.lit "WHERE" ++ Re.sp1);
         Re.unanchored (Re.sp1 ++ Re.lit "GROUP" ++ Re.sp1 ++ Re.lit "BY" ++ Re.sp1);
         Re.unanchored (Re.sp1 ++ Re.lit "ORDER" ++ Re.sp1 ++ Re.lit "BY" ++ Re.sp1);
         Re.unanchored (Re.sp1 ++ Re.lit "LIMIT" ++ Re.sp1 ++ [(Re.Digit, Re.Plus)]);
         Re.unanchored (Re.sp1 ++ Re.lit "COUNT" ++ Re.sp0 ++ [(Re.Esc "(", Re.Once)]);
         Re.unanchored (Re.sp1 ++ Re.lit "SUM" ++ Re.sp0 ++ [(Re.Esc "(", Re.Once)]);
         Re.unanchored (Re.sp1 ++ Re.lit "AVG" ++ Re.sp0 ++ [(Re.Esc "(", Re.Once)]);
         Re.unanchored (Re.sp1 ++ Re.lit "MIN" ++ Re.sp0 ++ [(Re.Esc "(", Re.Once)]);
         Re.unanchored (Re.sp1 ++ Re.lit "MAX" ++ Re.sp0 ++ [(Re.Esc "(", Re.Once)]) ];
     forbidden_patterns :=
       [ Re.unanchored (Re.lit "DROP" ++ Re.sp1);
         Re.unanchored (Re.lit "DELETE" ++ Re.sp1);
         Re.unanchored (Re.lit "INSERT" ++ Re.sp1);
         Re.unanchored (Re.lit "UPDATE" ++ Re.sp1);
         Re.unanchored (Re.lit "ALTER" ++ Re.sp1);
         Re.unanchored (Re.lit "CREATE" ++ Re.sp1);
         Re.unanchored (Re.lit "EXEC" ++ Re.sp1);
         Re.unanchored (Re.lit "UNION" ++ Re.sp1);
         Re.unanchored (Re.lit "--");
         Re.unanchored [(Re.Chr "/", Re.Once); (Re.Esc "*", Re.Once)];
         Re.unanchored (Re.lit "xp_");
         Re.unanchored (Re.lit "sp_") ];
     max_results := 1000 |}.

(** The double-quote character. *)
Definition dquote : ascii := ascii_of_nat 34.

(** The local [sql_upper] of [validate_sql]: [sql.upper().strip()]. *)
Definition sql_upper (sql : str) : str := Py.strip (Py.upper sql).

(** The test of the table rule:
    [any(f'FROM {table}' in sql_upper for table in [...])]. *)
Definition uses_allowed_table (sql_upper : str) : bool :=
  existsb (fun table => Py.contains (py "FROM " ++ table) sql_upper)
          [py "TRANSACTIONS"; py "CLIENT_SUMMARY"].

(** [validate_sql]: the verdict and its message. *)
Definition validate_sql (self : SQLQueryTool) (sql : str) : bool * str :=
  let sql_upper := sql_upper sql in
  if negb (Py.startswith (py "SELECT") sql_upper) then
    (false, py "Only SELECT queries are allowed")
  else
    match find (fun pattern => Re.search pattern sql_upper) (forbidden_patterns self) with
    | Some pattern =>
        (false, py "Forbidden SQL pattern detected: " ++ Re.source pattern)
    | None =>
        let allowed_tables := [py "transactions"; py "client_summary"] in
        if negb (uses_allowed_table sql_upper) then
          (false, py "Query must use 'transactions' or 'client_summary' table")
        else
          let suspicious_chars := [";"%char; dquote; "'"%char] in
          let quote_count := Py.count "'" sql in
          if negb (quote_count mod 2 =? 0)%Z then
            (false, py "Unmatched quotes detected")
          else
            (true, py "Query validated successfully")
    end.

(** ** The data store and the executor *)

(** A cell of a result row, as [sqlite3] hands it over: [None], [int],
    [float] (carried as the rational it denotes), [str] or [bytes].  The
    engine only moves cells around. *)
Inductive sqlval : Type :=
| SqlNull
| SqlInt (z : Z)
| SqlReal (q : Q)
| SqlText (s : str)
| SqlBlob (b : list ascii).

(** The exceptions that the two handlers of [execute_query] tell apart:
    [sqlite3.Error] (and its subclasses) and any other [Exception]. *)
Inductive exn : Type :=
| SqliteError (msg : str)
| OtherException (msg : str).

(** What [cursor.execute] followed by [cursor.fetchall] yields: an
    exception, or the column names of [cursor.description] and the rows. *)
Inductive cursor_result : Type :=
| Raises (e : exn)
| Rows (description : list str) (rows : list (list sqlval)).

Record store : Type := mk_store {
  connect : option exn;            (* [Some e]: [sqlite3.connect] raises [e] *)
  run : str -> cursor_result
}.

(** The calls that reach the driver. *)
Inductive event : Type :=
| Connect (path : str)
| Execute (statement : str)
| Close.

(** A Python [dict] with string keys, in insertion order. *)
Definition dict : Type := list (str * sqlval).

Fixpoint dict_set (k : str) (v : sqlval) (d : dict) : dict :=
  match d with
  | [] => [(k, v)]
  | (k', v') :: d' =>
      if Py.eqb k' k then (k', v) :: d' else (k', v') :: dict_set k v d'
  end.

(** [row[key]] of a [sqlite3.Row]: the first column whose name is [key],
    letter case ignored. *)
Fixpoint row_getitem (description : list str) (cells : list sqlval) (key : str)
  : option sqlval :=
  match description, cells with
  | name :: description', v :: cells' =>
      if Py.eqb (Py.upper name) (Py.upper key) then Some v
      else row_getitem description' cells' key
  | _, _ => None
  end.

(** [dict(row)]: one entry per key of [row.keys()], in column order. *)
Definition dict_of_row (description : list str) (cells : list sqlval) : dict :=
  fold_left
    (fun d key =>
       match row_getitem description cells key with
       | Some v => dict_set key v d
       | None => d
       end)
    description [].

(** The dictionary that [execute_query] returns: the failure shape has the
    keys success, error, query, results; the success shape has the keys
    success, query, results, column_names, row_count, limited. *)
Inductive outcome : Type :=
| Failure (error : str) (query : str) (results : list dict)
| Success (query : str) (results : list dict) (column_names : list str)
          (row_count : Z) (limited : bool).

Definition success (o : outcome) : bool :=
  match o with
  | Failure _ _ _ => false
  | Success _ _ _ _ _ => true
  end.

Definition results (o : outcome) : list dict :=
  match o with
  | Failure _ _ r => r
  | Success _ r _ _ _ => r
  end.

Definition query (o : outcome) : str :=
  match o with
  | Failure _ q _ => q
  | Success q _ _ _ _ => q
  end.

Definition error (o : outcome) : option str :=
  match o with
  | Failure e _ _ => Some e
  | Success _ _ _ _ _ => None
  end.

(** [sql.rstrip(';').strip()]. *)
Definition sql_clean (sql : str) : str :=
  Py.strip (Py.rstrip_chars (py ";") sql).

(** The statement handed to [cursor.execute]. *)
Definition limited_sql (self : SQLQueryTool) (sql : str) : str :=
  let sql_clean := sql_clean sql in
  if negb (Py.contains (py "LIMIT") (Py.upper sql_clean)) then
    sql_clean ++ py " LIMIT " ++ Py.str_of_int (max_results self)
  else
    sql_clean.

(** The two [except] clauses. *)
Definition handler (e : exn) (sql : str) : outcome :=
  match e with
  | SqliteError msg => Failure (py "SQL Execution Error: " ++ msg) sql []
  | OtherException msg => Failure (py "Unexpected Error: " ++ msg) sql []
  end.

(** The body of the [try] block: the value returned or the exception
    raised, with the driver calls made so far. *)
Definition try_block (self : SQLQueryTool) (st : store) (sql : str)
  : (exn + outcome) * list event :=
  match connect st with
  | Some e => (inl e, [Connect (db_path self)])
  | None =>
      let limited_sql := limited_sql self sql in
      match run st limited_sql with
      | Raises e => (inl e, [Connect (db_path self); Execute limited_sql])
      | Rows description rows =>
          let results := map (dict_of_row description) rows in
          let column_names :=
            match rows with
            | [] => []
            | _ :: _ => description
            end in
          (inr (Success sql results column_names
                        (Z.of_nat (List.length results))
                        (Z.of_nat (List.length results) =? max_results self)%Z),
           [Connect (db_path self); Execute limited_sql; Close])
      end
  end.

(** [execute_query]: the outcome and the driver calls. *)
Definition execute_query (self : SQLQueryTool) (st : store) (sql : str)
  : outcome * list event :=
  let '(is_valid, validation_msg) := validate_sql self sql in
  if negb is_valid then
    (Failure (py "SQL Validation Failed: " ++ validation_msg) sql [], [])
  else
    match try_block self st sql with
    | (inl e, trace) => (handler e sql, trace)
    | (inr o, trace) => (o, trace)
    end.

(** ** Notions of the specification, for comparison with the code *)

(** [s.endswith(suffix)]. *)
Definition endswith (suffix s : str) : bool :=
  Py.startswith (rev suffix) (rev s).

(** [s.split()]: the words of [s], separated by white space. *)
Fixpoint split_words (cur : str) (s : str) : list str :=
  match s with
  | [] => match cur with [] => [] | _ :: _ => [rev cur] end
  | c :: s' =>
      if Py.isspace c then
        match cur with
        | [] => split_words [] s'
        | _ :: _ => rev cur :: split_words [] s'
        end
      else split_words (c :: cur) s'
  end.

Fixpoint word_after_from (ws : list str) : option str :=
  match ws with
  | [] => None
  | w :: rest =>
      match rest with
      | [] => None
      | t :: _ =>
          if Py.eqb (Py.upper w) (py "FROM") then Some t
          else word_after_from rest
      end
  end.

(** The specification's reading of the table rule: the table that the FROM
    clause names is the word that follows the keyword FROM. *)
Definition spec_from_table (sql : str) : option str :=
  word_after_from (split_words [] sql).

Definition spec_allowed_table (t : str) : bool :=
  Py.eqb (Py.upper t) (py "TRANSACTIONS") ||
  Py.eqb (Py.upper t) (py "CLIENT_SUMMARY").


(** A LIMIT clause, as the tool's own allowed pattern [\s+LIMIT\s+\d+]
    describes it, letter case ignored. *)
Definition limit_clause_pattern : Re.regex :=
  Re.unanchored (Re.sp1 ++ Re.lit "LIMIT" ++ Re.sp1 ++ [(Re.Digit, Re.Plus)]).


(** The forbidden words that the patterns follow by [\s+], and the two
    comment markers. *)
Definition forbidden_words : list str :=
  [py "DROP"; py "DELETE"; py "INSERT"; py "UPDATE"; py "ALTER"; py "CREATE";
   py "EXEC"; py "UNION"].

Definition comment_markers : list str := [py "--"; py "/*"].

(** ** A store for examples *)

(** A store with [n] rows that match whatever is asked; it honours a final
    [LIMIT 1000] and nothing else. *)
Definition sample_store (n : nat) : store :=
  {| connect := None;
     run := fun statement =>
       Rows [py "clnt_id"]
            (repeat [SqlInt 2]
               (if endswith (py " LIMIT 1000") statement then Nat.min n 1000 else n)) |}.

(** A store on which every statement fails. *)
Definition failing_store (e : exn) : store :=
  {| connect := None; run := fun _ => Raises e |}.

(** The tool under study. *)
Definition tool : SQLQueryTool := init (py "transactions.db").

(** The statement that the trace says was executed. *)
Fixpoint executed (trace : list event) : list str :=
  match trace with
  | [] => []
  | Execute q :: trace' => q :: executed trace'
  | _ :: trace' => executed trace'
  end.

(** Replacement of every semicolon and double quote by a comma. *)
Definition defuse_char (c : ascii) : ascii :=
  if Ascii.eqb c ";" || Ascii.eqb c dquote then ","%char else c.

Definition defuse (sql : str) : str := map defuse_char sql.

(** A character that is neither of the two nor the comma. *)
Definition plain_char (k : ascii) : bool :=
  negb (Ascii.eqb k ";" || Ascii.eqb k dquote || Ascii.eqb k ",").

Definition plain_cls (k : Re.cls) : bool :=
  match k with
  | Re.Chr d => plain_char d
  | Re.Esc d => plain_char d
  | Re.Space => true
  | Re.Digit => true
  end.

Definition plain_regex (r : Re.regex) : bool :=
  forallb (fun it => plain_cls (fst it)) (Re.items r).

(** ** Construction of the tool: the whole of [SQLQueryTool.__init__] *)

(** One step of [os.path.join] (POSIX): an absolute component replaces the
    path, otherwise it is appended behind a single separator. *)
Definition path_join2 (path b : str) : str :=
  if Py.startswith (py "/") b then b
  else
    match path with
    | [] => b
    | _ :: _ => if endswith (py "/") path then path ++ b else path ++ py "/" ++ b
    end.

(** [os.path.join(a, *p)]. *)
Definition path_join (a : str) (p : list str) : str := fold_left path_join2 p a.

(** What the file system answers to [os.path.exists] and to
    [Path(...).exists()]. *)
Record filesystem : Type := mk_filesystem {
  os_path_exists : str -> bool;
  Path_exists : str -> bool
}.

(** The three candidate locations, in the order in which they are tried;
    [current_dir] is the directory of the source file. *)
Definition db_paths (current_dir : str) : list str :=
  [ path_join current_dir [py "transactions.db"];
    path_join current_dir [py ".."; py "data"; py "transactions.db"];
    path_join current_dir [py ".."; py "transactions.db"] ].

Inductive construction : Type :=
| FileNotFoundError (msg : str)
| Constructed (self : SQLQueryTool).

(** [SQLQueryTool(db_path)]. *)
Definition SQLQueryTool_init (fs : filesystem) (current_dir : str)
           (db_path : option str) : construction :=
  let found :=
    match db_path with
    | None => find (os_path_exists fs) (db_paths current_dir)
    | Some given => Some given
    end in
  match found with
  | None =>
      FileNotFoundError (py "Could not find transactions.db in expected locations")
  | Some db_path =>
      if negb (Path_exists fs db_path) then
        FileNotFoundError (py "Database not found: " ++ db_path)
      else Constructed (init db_path)
  end.

(** ** The assistant: [src/llm_sql_assistant.py] *)

(** A value that [json.loads] returns. *)
#[warnings="-register-all"]
Inductive json : Type :=
| JNull
| JBool (b : bool)
| JInt (z : Z)
| JReal (q : Q)
| JStr (s : str)
| JList (l : list json)
| JDict (d : list (str * json)).

(** [type(v).__name__]. *)
Definition type_name (v : json) : str :=
  match v with
  | JNull => py "NoneType"
  | JBool _ => py "bool"
  | JInt _ => py "int"
  | JReal _ => py "float"
  | JStr _ => py "str"
  | JList _ => py "list"
  | JDict _ => py "dict"
  end.

(** [d.get(k, default)] of a parsed object. *)
Fixpoint json_get (k : str) (d : list (str * json)) (default : json) : json :=
  match d with
  | [] => default
  | (k', v) :: d' => if Py.eqb k' k then v else json_get k d' default
  end.

(** The ways in which [json.loads] ends. *)
Inductive loads_result : Type :=
| Loaded (v : json)
| JSONDecodeError
| LoadsRaises (msg : str).

(** The language model behind [self.client].  Each field stands for one
    [chat.completions.create] call followed by the reading of
    [choices[0].message.content]: [inr content] is the text of the reply and
    [inl msg] an exception whose text is [msg].  The prompt of the first call
    is built from the selected client and the user's question, the prompt of
    the second from the question and the result rows, so these are the
    arguments. *)
Record openai_client : Type := mk_client {
  complete_sql : Z -> str -> str + str;
  complete_answer : str -> list dict -> str + str
}.

Record LLMSQLAssistant : Type := mk_assistant {
  sql_tool : SQLQueryTool;
  current_client_id : option Z;
  client : option openai_client
}.

(** The exceptions that leave the methods of the assistant. *)
Inductive py_exc : Type :=
| AttributeError (msg : str)
| KeyError (key : str)
| TypeError (msg : str)
| ValueError (msg : str).

(** A character of the decimal text of an integer. *)
Definition numeric_char (c : ascii) : bool := Re.isdigit c || Ascii.eqb c "-".

(** The two statements of [set_client]. *)
Definition count_query (client_id : Z) : str :=
  py "SELECT COUNT(*) as count FROM transactions WHERE clnt_id = "
  ++ Py.str_of_int client_id.

Definition summary_query (client_id : Z) : str :=
  py "SELECT * FROM client_summary WHERE clnt_id = " ++ Py.str_of_int client_id.

(** [d[k]] of a result row; [None] stands for [KeyError]. *)
Fixpoint dict_get (k : str) (d : dict) : option sqlval :=
  match d with
  | [] => None
  | (k', v) :: d' => if Py.eqb k' k then Some v else dict_get k d'
  end.

Definition sqlval_type_name (v : sqlval) : str :=
  match v with
  | SqlNull => py "NoneType"
  | SqlInt _ => py "int"
  | SqlReal _ => py "float"
  | SqlText _ => py "str"
  | SqlBlob _ => py "bytes"
  end.

(** [v > n] for an integer literal [n]. *)
Definition gt_int (v : sqlval) (n : Z) : py_exc + bool :=
  match v with
  | SqlInt z => inr (n <? z)%Z
  | SqlReal q => inr (negb (Qle_bool q (inject_Z n)))
  | other =>
      inl (TypeError (py "'>' not supported between instances of '"
                      ++ sqlval_type_name other ++ py "' and 'int'"))
  end.

Definition with_client_id (self : LLMSQLAssistant) (client_id : Z) : LLMSQLAssistant :=
  {| sql_tool := sql_tool self;
     current_client_id := Some client_id;
     client := client self |}.

(** [set_client]: the value returned or the exception raised, the assistant
    afterwards, and the driver calls.  Standard output is not modelled;
    [print_summary] stands for the four [print] calls of the success branch,
    which format the summary row and raise when a field is missing or has
    the wrong type. *)
Definition set_client (print_summary : Z -> dict -> option py_exc)
           (self : LLMSQLAssistant) (st : store) (client_id : Z)
  : (py_exc + bool) * LLMSQLAssistant * list event :=
  let (result, trace1) :=
    execute_query (sql_tool self) st (count_query client_id) in
  let condition : py_exc + bool :=
    if negb (success result) then inr false
    else
      match results result with
      | [] => inr false
      | first :: _ =>
          match dict_get (py "count") first with
          | None => inl (KeyError (py "count"))
          | Some v => gt_int v 0
          end
      end in
  match condition with
  | inl e => (inl e, self, trace1)
  | inr false => (inr false, self, trace1)
  | inr true =>
      let self' := with_client_id self client_id in
      let (client_result, trace2) :=
        execute_query (sql_tool self') st (summary_query client_id) in
      match success client_result, results client_result with
      | true, summary :: _ =>
          match print_summary client_id summary with
          | Some e => (inl e, self', trace1 ++ trace2)
          | None => (inr true, self', trace1 ++ trace2)
          end
      | _, _ => (inr false, self', trace1 ++ trace2)
      end
  end.

(** The dictionary that [generate_sql] returns. *)
Inductive sql_generation : Type :=
| GenFailure (error : str)
| GenSuccess (sql : json) (explanation : json).

Definition newline : ascii := ascii_of_nat 10.

(** [s.split(sep)] for a one-character separator. *)
Fixpoint split_on (sep : ascii) (cur : str) (s : str) : list str :=
  match s with
  | [] => [rev cur]
  | c :: s' =>
      if Ascii.eqb c sep then rev cur :: split_on sep [] s'
      else split_on sep (c :: cur) s'
  end.

(** The recovery of [generate_sql] when the reply is not JSON: the first
    line that mentions SELECT, trimmed. *)
Definition extract_sql (response_text : str) : sql_generation :=
  let could_not :=
    GenFailure (py "Could not parse SQL from response: " ++ response_text) in
  if Py.contains (py "SELECT") (Py.upper response_text) then
    let lines := split_on newline [] response_text in
    match find (fun line => Py.contains (py "SELECT") (Py.upper line)) lines with
    | Some sql_line =>
        match sql_line with
        | [] => could_not
        | _ :: _ =>
            GenSuccess (JStr (Py.strip sql_line)) (JStr (py "SQL extracted from response"))
        end
    | None => could_not
    end
  else could_not.

(** [generate_sql]; [loads] is [json.loads]. *)
Definition generate_sql (loads : str -> loads_result)
           (self : LLMSQLAssistant) (user_query : str) : sql_generation :=
  match client self with
  | None => GenFailure (py "OpenAI API not available")
  | Some c =>
      match current_client_id self with
      | None => GenFailure (py "No client selected. Please select a client first.")
      | Some id =>
          if (id =? 0)%Z then
            GenFailure (py "No client selected. Please select a client first.")
          else
            match complete_sql c id user_query with
            | inl msg => GenFailure (py "OpenAI API error: " ++ msg)
            | inr content =>
                let response_text := Py.strip content in
                match loads response_text with
                | Loaded (JDict d) =>
                    GenSuccess (json_get (py "sql") d JNull)
                               (json_get (py "explanation") d (JStr []))
                | Loaded parsed =>
                    GenFailure (py "OpenAI API error: '" ++ type_name parsed
                                ++ py "' object has no attribute 'get'")
                | JSONDecodeError => extract_sql response_text
                | LoadsRaises msg => GenFailure (py "OpenAI API error: " ++ msg)
                end
            end
      end
  end.

(** The formatting of Python that [_fallback_response] relies on:
    [f"{value:.2f}"], [f"{value}"] and [f"{row}"] of a dictionary. *)
Record formatter : Type := mk_formatter {
  format_2f : sqlval -> str;
  format_value : sqlval -> str;
  format_dict : dict -> str
}.

(** [isinstance(value, (int, float)) and value > 1]. *)
Definition number_above_one (v : sqlval) : bool :=
  match v with
  | SqlInt z => (1 <? z)%Z
  | SqlReal q => negb (Qle_bool q 1)
  | _ => false
  end.

Definition _fallback_response (fmt : formatter) (sql_results : outcome) : str :=
  match sql_results with
  | Failure e _ _ => py "Query failed: " ++ e
  | Success _ results _ _ _ =>
      match results with
      | [] => py "No results found for your query."
      | first :: rest =>
          match rest, first with
          | [], [(_, value)] =>
              if number_above_one value then py "Result: $" ++ format_2f fmt value
              else py "Result: " ++ format_value fmt value
          | _, _ =>
              py "Found " ++ Py.str_of_int (Z.of_nat (List.length results))
              ++ py " results. Sample: " ++ format_dict fmt first
          end
      end
  end.

(** Can [json.dumps] serialise the rows?  Every cell can be written except
    [bytes]. *)
Definition json_serializable (results : list dict) : bool :=
  forallb
    (forallb (fun kv : str * sqlval =>
                match snd kv with
                | SqlBlob _ => false
                | _ => true
                end))
    results.

(** [generate_natural_response]: the text returned or the exception raised.
    The user prompt, with [json.dumps(results, indent=2)] in it, is built
    before the [try], so a row that cannot be serialised raises here. *)
Definition generate_natural_response (fmt : formatter) (self : LLMSQLAssistant)
           (user_query : str) (sql_results : outcome) : py_exc + str :=
  match client self with
  | None => inr (_fallback_response fmt sql_results)
  | Some c =>
      match sql_results with
      | Failure e _ _ =>
          inr (py "I couldn't process your query due to an error: " ++ e)
      | Success _ results _ _ _ =>
          match results with
          | [] =>
              inr (py "I couldn't find any transactions matching your criteria. You might want to try a different time period or category.")
          | _ :: _ =>
              if negb (json_serializable results) then
                inl (TypeError (py "Object of type bytes is not JSON serializable"))
              else
                match complete_answer c user_query results with
                | inr content => inr (Py.strip content)
                | inl _ => inr (_fallback_response fmt sql_results)
                end
          end
      end
  end.

Record QueryResult : Type := mk_query_result {
  qr_success : bool;
  qr_query : str;
  qr_sql_generated : option str;
  qr_sql_results : option outcome;      (* [None]: the empty dictionary *)
  qr_natural_response : str;
  qr_error : option str
}.

(** [process_query]: the result or the exception that leaves it, and the
    driver calls.  A generated [sql] that is not a string makes
    [validate_sql] fail at [sql.upper()], outside any [try]; an exception of
    [generate_natural_response] leaves [process_query] as well. *)
Definition process_query (loads : str -> loads_result) (fmt : formatter)
           (self : LLMSQLAssistant) (st : store) (user_query : str)
  : (py_exc + QueryResult) * list event :=
  match generate_sql loads self user_query with
  | GenFailure e =>
      (inr {| qr_success := false;
              qr_query := user_query;
              qr_sql_generated := None;
              qr_sql_results := None;
              qr_natural_response := py "Could not generate SQL: " ++ e;
              qr_error := Some e |},
       [])
  | GenSuccess (JStr sql_query) _ =>
      let (sql_results, trace) := execute_query (sql_tool self) st sql_query in
      match generate_natural_response fmt self user_query sql_results with
      | inl e => (inl e, trace)
      | inr natural_response =>
          (inr {| qr_success := success sql_results;
                  qr_query := user_query;
                  qr_sql_generated := Some sql_query;
                  qr_sql_results := Some sql_results;
                  qr_natural_response := natural_response;
                  qr_error := if negb (success sql_results) then error sql_results
                              else None |},
           trace)
      end
  | GenSuccess other _ =>
      (inl (AttributeError (py "'" ++ type_name other
                            ++ py "' object has no attribute 'upper'")),
       [])
  end.

(** ** Stores and oracles for examples *)

(** A store that knows client 2: three transactions, and no summary row. *)
Definition store_without_summary : store :=
  {| connect := None;
     run := fun statement =>
       if Py.startswith (py "SELECT COUNT(*)") statement
       then Rows [py "count"] [[SqlInt 3]]
       else Rows [py "clnt_id"; py "transaction_count"] [] |}.

(** A store that knows client 0: three transactions and a summary row. *)
Definition store_with_summary : store :=
  {| connect := None;
     run := fun statement =>
       if Py.startswith (py "SELECT COUNT(*)") statement
       then Rows [py "count"] [[SqlInt 3]]
       else Rows [py "clnt_id"; py "transaction_count"] [[SqlInt 0; SqlInt 3]] |}.


(** [json.loads] of a reply that is an object without the key sql. *)
Definition loads_without_sql : str -> loads_result :=
  fun _ => Loaded (JDict [(py "explanation", JStr (py "total spending"))]).

(** A client that answers every question with [reply]. *)
Definition fixed_client (reply : str) : openai_client :=
  {| complete_sql := fun _ _ => inr reply;
     complete_answer := fun _ _ => inr reply |}.

Definition no_json : str -> loads_result := fun _ => JSONDecodeError.

Definition plain_formatter : formatter :=
  {| format_2f := fun _ => py "0.00";
     format_value := fun _ => py "None";
     format_dict := fun _ => py "{}" |}.

Definition no_print_error : Z -> dict -> option py_exc := fun _ _ => None.

(** One step of [dict(row)], as in [dict_of_row]. *)
Definition dict_step (description : list str) (cells : list sqlval)
           (d : dict) (key : str) : dict :=
  match row_getitem description cells key with
  | Some v => dict_set key v d
  | None => d
  end.

(** ** Notions used to state the cap and the row set *)


(** The specification's reading of "contains the row set": the dictionary
    of a row holds every cell of that row. *)
Definition holds_row_set (rows : list (list sqlval)) (results : list dict) : Prop :=
  Forall2 (fun cells d => forall v, In v cells -> exists k, In (k, v) d)
          rows results.

(** Column names that are pairwise distinct, letter case ignored. *)
Definition distinct_names (description : list str) : Prop :=
  NoDup (map Py.upper description).

(** A store whose result has two columns of the same name, as a join of
    the table with itself gives. *)
Definition self_join_store : store :=
  {| connect := None;
     run := fun _ => Rows [py "amt"; py "amt"] [[SqlInt 1; SqlInt 2]] |}.

(** * Facts about the string operations *)

Ltac list_norm := repeat first [rewrite <- app_assoc | progress simpl].

Section PyFacts.

Lemma startswith_iff (w s : str) :
  Py.startswith w s = true <-> exists b, s = w ++ b.
Proof.
  revert s; induction w as [|k w IH]; intros s; simpl.
  - split; [intros _; now exists s | reflexivity].
  - destruct s as [|c s]; simpl.
    + split; [discriminate | intros [b Hb]; discriminate].
    + rewrite andb_true_iff, IH. split.
      * intros [Hk [b ->]]. apply Ascii.eqb_eq in Hk. subst. now exists b.
      * intros [b Hb]. injection Hb as -> ->. split.
        -- apply Ascii.eqb_refl.
        -- now exists b.
Qed.

Lemma contains_iff (w s : str) :
  Py.contains w s = true <-> exists a b, s = a ++ w ++ b.
Proof.
  induction s as [|c s IH]; simpl.
  - rewrite orb_false_r, startswith_iff. split.
    + intros [b Hb]. now exists [], b.
    + intros [a [b Hab]]. destruct a; simpl in Hab; [now exists b | discriminate].
  - rewrite orb_true_iff, startswith_iff, IH. split.
    + intros [[b Hb] | [a [b Hab]]].
      * now exists [], b.
      * exists (c :: a), b. now rewrite Hab.
    + intros [a [b Hab]]. destruct a as [|c' a]; simpl in Hab.
      * left. now exists b.
      * right. injection Hab as _ ->. now exists a, b.
Qed.

Lemma dropwhile_split (p : ascii -> bool) (s : str) :
  exists a, s = a ++ Py.dropwhile p s /\ forallb p a = true.
Proof.
  induction s as [|c s [a [Ha Hp]]]; simpl.
  - now exists [].
  - destruct (p c) eqn:Hc.
    + exists (c :: a). simpl. rewrite Hc, Hp. now rewrite <- Ha.
    + now exists [].
Qed.

Lemma dropwhile_stops (p : ascii -> bool) (a : str) (c : ascii) (r : str) :
  p c = false -> exists a', Py.dropwhile p (a ++ c :: r) = a' ++ c :: r.
Proof.
  intros Hc. induction a as [|d a [a' IH]]; simpl.
  - rewrite Hc. now exists [].
  - destruct (p d).
    + now exists a'.
    + now exists (d :: a).
Qed.

Lemma forallb_rev (p : ascii -> bool) (s : str) :
  forallb p (rev s) = forallb p s.
Proof.
  induction s as [|c s IH]; simpl; [reflexivity|].
  rewrite forallb_app, IH. simpl. rewrite andb_true_r. apply andb_comm.
Qed.

Lemma rstrip_split (s : str) :
  exists r, s = Py.rstrip s ++ r /\ forallb Py.isspace r = true.
Proof.
  unfold Py.rstrip.
  destruct (dropwhile_split Py.isspace (rev s)) as [a [Ha Hp]].
  exists (rev a). split.
  - rewrite <- rev_app_distr, <- Ha. now rewrite rev_involutive.
  - now rewrite forallb_rev.
Qed.

(** [strip] takes white space off both ends and nothing else. *)
Lemma strip_split (s : str) :
  exists l r, s = l ++ Py.strip s ++ r /\
              forallb Py.isspace l = true /\ forallb Py.isspace r = true.
Proof.
  destruct (rstrip_split s) as [r [Hr Hpr]].
  destruct (dropwhile_split Py.isspace (Py.rstrip s)) as [l [Hl Hpl]].
  exists l, r. repeat split; trivial.
  unfold Py.strip, Py.lstrip. rewrite app_assoc, <- Hl. exact Hr.
Qed.

(** A piece of text that begins and ends with a character that is not
    white space survives [strip]. *)
Lemma strip_keeps (a b m : str) (c d : ascii) :
  Py.isspace c = false -> Py.isspace d = false ->
  exists a' b', Py.strip (a ++ (c :: m ++ [d]) ++ b) = a' ++ (c :: m ++ [d]) ++ b'.
Proof.
  intros Hc Hd. unfold Py.strip, Py.lstrip, Py.rstrip.
  assert (E : rev (a ++ (c :: m ++ [d]) ++ b) = rev b ++ d :: rev (a ++ c :: m)).
  { rewrite !rev_app_distr. simpl. rewrite !rev_app_distr. now list_norm. }
  rewrite E.
  destruct (dropwhile_stops Py.isspace (rev b) d (rev (a ++ c :: m)) Hd) as [b1 ->].
  rewrite rev_app_distr. simpl. rewrite rev_involutive. list_norm.
  destruct (dropwhile_stops Py.isspace a c (m ++ d :: rev b1) Hc) as [a' ->].
  exists a', (rev b1). now list_norm.
Qed.

Lemma contains_strip (w s : str) :
  Py.contains w (Py.strip s) = true -> Py.contains w s = true.
Proof.
  rewrite !contains_iff. intros [a [b Hab]].
  destruct (strip_split s) as [l [r [Hs _]]].
  exists (l ++ a), (b ++ r). rewrite Hs, Hab. now rewrite <- !app_assoc.
Qed.

Lemma contains_strip_keeps (a b m : str) (c d : ascii) :
  Py.isspace c = false -> Py.isspace d = false ->
  Py.contains (c :: m ++ [d]) (Py.strip (a ++ (c :: m ++ [d]) ++ b)) = true.
Proof.
  intros Hc Hd. destruct (strip_keeps a b m c d Hc Hd) as [a' [b' ->]].
  apply contains_iff. now exists a', b'.
Qed.

Lemma upper_app (a b : str) : Py.upper (a ++ b) = Py.upper a ++ Py.upper b.
Proof. apply map_app. Qed.

Lemma count_app (c : ascii) (a b : str) :
  Py.count c (a ++ b) = (Py.count c a + Py.count c b)%Z.
Proof. induction a as [|d a IH]; simpl; [reflexivity | rewrite IH; lia]. Qed.

End PyFacts.

(** * Facts about the matcher *)

Section ReFacts.

Lemma match_lits (w : str) (its : list (Re.cls * Re.quant)) (s : str) :
  Re.match_here (Re.lits w ++ its) s = true <->
  exists r, s = w ++ r /\ Re.match_here its r = true.
Proof.
  revert s; induction w as [|k w IH]; intros s; simpl.
  - split; [intros H; now exists s | now intros [r [-> H]]].
  - destruct s as [|c s].
    + split; [discriminate | intros [r [Hr _]]; discriminate].
    + rewrite andb_true_iff, IH. split.
      * intros [Hk [r [-> Hr]]]. apply Ascii.eqb_eq in Hk. subst. now exists r.
      * intros [r [Hr Hm]]. injection Hr as -> ->. split.
        -- apply Ascii.eqb_refl.
        -- now exists r.
Qed.

Lemma match_lits_only (w s : str) :
  Re.match_here (Re.lits w) s = Py.startswith w s.
Proof.
  revert s; induction w as [|k w IH]; intros s; simpl; [reflexivity|].
  destruct s as [|c s]; [reflexivity|]. now rewrite IH.
Qed.

Lemma star_rest (k : Re.cls) (rest : str -> bool) (s : str) :
  rest s = true -> Re.star k rest s = true.
Proof. intros H. destruct s; simpl; now rewrite H. Qed.

Lemma match_sp1 (s : str) :
  Re.match_here Re.sp1 s = true <->
  exists c r, s = c :: r /\ Py.isspace c = true.
Proof.
  unfold Re.sp1. simpl. destruct s as [|c s].
  - split; [discriminate | intros [c [r [H _]]]; discriminate].
  - rewrite andb_true_iff. split.
    + intros [Hc _]. now exists c, s.
    + intros [c' [r [H Hc]]]. injection H as -> ->. split; [exact Hc|].
      now apply star_rest.
Qed.

Lemma search_from_iff (its : list (Re.cls * Re.quant)) (s : str) :
  Re.search_from its s = true <->
  exists a b, s = a ++ b /\ Re.match_here its b = true.
Proof.
  induction s as [|c s IH]; simpl.
  - rewrite orb_false_r. split.
    + intros H. now exists [], [].
    + intros [a [b [Hab H]]]. symmetry in Hab.
      apply app_eq_nil in Hab. destruct Hab as [_ ->]. exact H.
  - rewrite orb_true_iff, IH. split.
    + intros [H | [a [b [-> H]]]].
      * now exists [], (c :: s).
      * now exists (c :: a), b.
    + intros [a [b [Hab H]]]. destruct a as [|c' a]; simpl in Hab.
      * left. now subst.
      * right. injection Hab as _ ->. now exists a, b.
Qed.

(** [WORD\s+] is found exactly where the word is followed by a white-space
    character. *)
Lemma search_word_space (w t : str) :
  Re.search (Re.unanchored (Re.lits w ++ Re.sp1)) t = true <->
  exists c, Py.isspace c = true /\ Py.contains (w ++ [c]) t = true.
Proof.
  unfold Re.search, Re.unanchored. simpl. rewrite search_from_iff. split.
  - intros [a [b [-> H]]]. apply match_lits in H. destruct H as [r [-> H]].
    apply match_sp1 in H. destruct H as [c [r' [-> Hc]]].
    exists c. split; [exact Hc|]. apply contains_iff. exists a, r'. now list_norm.
  - intros [c [Hc H]]. apply contains_iff in H. destruct H as [a [b ->]].
    exists a, (w ++ c :: b). split; [now list_norm|].
    apply match_lits. exists (c :: b). split; [reflexivity|].
    apply match_sp1. now exists c, b.
Qed.

(** A pattern of plain characters is found exactly where the text holds
    them. *)
Lemma search_lits (w t : str) :
  Re.search (Re.unanchored (Re.lits w)) t = Py.contains w t.
Proof.
  unfold Re.search, Re.unanchored. simpl.
  induction t as [|c t IH]; simpl; now rewrite match_lits_only, ?IH.
Qed.

Lemma find_first (A : Type) (f : A -> bool) (l : list A) (x : A) :
  In x l -> f x = true ->
  exists y, find f l = Some y /\ In y l /\ f y = true.
Proof.
  intros Hin Hx. destruct (find f l) as [y|] eqn:E.
  - exists y. split; [reflexivity|]. now apply find_some in E.
  - apply find_none with (x := x) in E; [congruence | exact Hin].
Qed.

Lemma find_ext_in (A : Type) (f g : A -> bool) (l : list A) :
  (forall x, In x l -> f x = g x) -> find f l = find g l.
Proof.
  induction l as [|x l IH]; intros H; simpl; [reflexivity|].
  rewrite (H x (or_introl eq_refl)). destruct (g x); [reflexivity|].
  apply IH. intros y Hy. apply H. now right.
Qed.

End ReFacts.

(** * The validator does not look at semicolons and double quotes *)

Section Defuse.

Ltac all_chars c :=
  destruct c as [[] [] [] [] [] [] [] []]; reflexivity.

Lemma defuse_upper_char (c : ascii) :
  Py.upper_char (defuse_char c) = defuse_char (Py.upper_char c).
Proof. all_chars c. Qed.

Lemma defuse_isspace (c : ascii) : Py.isspace (defuse_char c) = Py.isspace c.
Proof. all_chars c. Qed.

Lemma defuse_isdigit (c : ascii) : Re.isdigit (defuse_char c) = Re.isdigit c.
Proof. all_chars c. Qed.

Lemma defuse_eqb (k c : ascii) :
  plain_char k = true -> Ascii.eqb k (defuse_char c) = Ascii.eqb k c.
Proof.
  unfold plain_char, defuse_char. intros Hk.
  apply negb_true_iff in Hk. rewrite !orb_false_iff in Hk.
  destruct Hk as [[H1 H2] H3].
  destruct (Ascii.eqb_spec c ";") as [->|]; simpl.
  - now rewrite H1, H3.
  - destruct (Ascii.eqb_spec c dquote) as [->|]; [now rewrite H2, H3 | reflexivity].
Qed.

Lemma defuse_quote (c : ascii) :
  Ascii.eqb (defuse_char c) "'" = Ascii.eqb c "'".
Proof. all_chars c. Qed.

Lemma defuse_cls (k : Re.cls) (c : ascii) :
  plain_cls k = true -> Re.cls_match k (defuse_char c) = Re.cls_match k c.
Proof.
  destruct k; simpl; intros H.
  - now apply defuse_eqb.
  - now apply defuse_eqb.
  - apply defuse_isspace.
  - apply defuse_isdigit.
Qed.

Lemma dropwhile_defuse (p : ascii -> bool) (s : str) :
  (forall c, p (defuse_char c) = p c) ->
  Py.dropwhile p (defuse s) = defuse (Py.dropwhile p s).
Proof.
  intros Hp. induction s as [|c s IH]; simpl; [reflexivity|].
  rewrite Hp. destruct (p c); [exact IH | reflexivity].
Qed.

Lemma strip_defuse (s : str) : Py.strip (defuse s) = defuse (Py.strip s).
Proof.
  assert (R : forall t, rev (defuse t) = defuse (rev t)).
  { intros t. unfold defuse. symmetry. apply map_rev. }
  unfold Py.strip, Py.lstrip, Py.rstrip.
  rewrite R, (dropwhile_defuse Py.isspace (rev s) defuse_isspace), R.
  apply (dropwhile_defuse Py.isspace _ defuse_isspace).
Qed.

Lemma upper_defuse (s : str) : Py.upper (defuse s) = defuse (Py.upper s).
Proof.
  unfold Py.upper, defuse. rewrite !map_map. apply map_ext.
  intros c. apply defuse_upper_char.
Qed.

Lemma sql_upper_defuse (s : str) : sql_upper (defuse s) = defuse (sql_upper s).
Proof. unfold sql_upper. now rewrite upper_defuse, strip_defuse. Qed.

Lemma startswith_defuse (w s : str) :
  forallb plain_char w = true ->
  Py.startswith w (defuse s) = Py.startswith w s.
Proof.
  revert s; induction w as [|k w IH]; intros s Hw; simpl; [reflexivity|].
  simpl in Hw. apply andb_true_iff in Hw. destruct Hw as [Hk Hw].
  destruct s as [|c s]; simpl; [reflexivity|].
  now rewrite defuse_eqb, IH.
Qed.

Lemma contains_defuse (w s : str) :
  forallb plain_char w = true ->
  Py.contains w (defuse s) = Py.contains w s.
Proof.
  intros Hw. induction s as [|c s IH].
  - reflexivity.
  - change (defuse (c :: s)) with (defuse_char c :: defuse s).
    cbn [Py.contains]. rewrite IH.
    change (defuse_char c :: defuse s) with (defuse (c :: s)).
    now rewrite startswith_defuse.
Qed.

Lemma star_defuse (k : Re.cls) (rest rest' : str -> bool) :
  plain_cls k = true ->
  (forall s, rest (defuse s) = rest' s) ->
  forall s, Re.star k rest (defuse s) = Re.star k rest' s.
Proof.
  intros Hk Hr s. induction s as [|c s IH].
  - pose proof (Hr []) as H0. simpl in *. now rewrite H0.
  - change (defuse (c :: s)) with (defuse_char c :: defuse s).
    cbn [Re.star]. rewrite IH, defuse_cls by exact Hk.
    change (defuse_char c :: defuse s) with (defuse (c :: s)).
    now rewrite Hr.
Qed.

Lemma match_here_defuse (its : list (Re.cls * Re.quant)) :
  forallb (fun it => plain_cls (fst it)) its = true ->
  forall s, Re.match_here its (defuse s) = Re.match_here its s.
Proof.
  induction its as [|[k q] its IH]; intros Hp s; [reflexivity|].
  simpl in Hp. apply andb_true_iff in Hp. destruct Hp as [Hk Hp].
  specialize (IH Hp).
  destruct q; cbn [Re.match_here].
  - destruct s as [|c s]; simpl; [reflexivity|]. now rewrite defuse_cls, IH.
  - destruct s as [|c s]; simpl; [reflexivity|].
    rewrite defuse_cls by exact Hk.
    now rewrite (star_defuse k _ _ Hk IH).
  - apply (star_defuse k _ _ Hk IH).
Qed.

Lemma search_defuse (r : Re.regex) (s : str) :
  plain_regex r = true -> Re.search r (defuse s) = Re.search r s.
Proof.
  unfold plain_regex, Re.search. intros Hp.
  destruct (Re.anchored r); [now apply match_here_defuse|].
  induction s as [|c s IH].
  - reflexivity.
  - change (defuse (c :: s)) with (defuse_char c :: defuse s).
    cbn [Re.search_from]. rewrite IH.
    change (defuse_char c :: defuse s) with (defuse (c :: s)).
    now rewrite match_here_defuse.
Qed.

Lemma count_quote_defuse (s : str) :
  Py.count "'" (defuse s) = Py.count "'" s.
Proof.
  induction s as [|c s IH]; simpl; [reflexivity|].
  now rewrite defuse_quote, IH.
Qed.

Lemma forbidden_patterns_plain (path : str) :
  forallb plain_regex (forbidden_patterns (init path)) = true.
Proof. reflexivity. Qed.

Lemma validate_sql_defuse (path : str) (sql : str) :
  validate_sql (init path) (defuse sql) = validate_sql (init path) sql.
Proof.
  unfold validate_sql. rewrite sql_upper_defuse, count_quote_defuse.
  rewrite startswith_defuse by reflexivity.
  assert (F : find (fun pattern => Re.search pattern (defuse (sql_upper sql)))
                   (forbidden_patterns (init path)) =
              find (fun pattern => Re.search pattern (sql_upper sql))
                   (forbidden_patterns (init path))).
  { apply find_ext_in. intros r Hr. apply search_defuse.
    pose proof (forbidden_patterns_plain path) as P.
    rewrite forallb_forall in P. now apply P. }
  rewrite F.
  assert (T : uses_allowed_table (defuse (sql_upper sql)) =
              uses_allowed_table (sql_upper sql)).
  { unfold uses_allowed_table. simpl.
    now rewrite !contains_defuse by reflexivity. }
  now rewrite T.
Qed.

End Defuse.

(** * The validator *)

Section Validator.

Variable path : str.

(** The four rules, read off the verdict. *)
Lemma validate_sql_admits (self : SQLQueryTool) (sql : str) :
  fst (validate_sql self sql) = true <->
  Py.startswith (py "SELECT") (sql_upper sql) = true /\
  find (fun pattern => Re.search pattern (sql_upper sql)) (forbidden_patterns self) = None /\
  uses_allowed_table (sql_upper sql) = true /\
  (Py.count "'" sql mod 2 =? 0)%Z = true.
Proof.
  unfold validate_sql.
  destruct (Py.startswith (py "SELECT") (sql_upper sql)); simpl.
  2: { split; [discriminate | intros [H _]; discriminate]. }
  destruct (find _ (forbidden_patterns self)); simpl.
  1: { split; [discriminate | intros [_ [H _]]; discriminate]. }
  destruct (uses_allowed_table (sql_upper sql)); simpl.
  2: { split; [discriminate | intros [_ [_ [H _]]]; discriminate]. }
  destruct (Py.count "'" sql mod 2 =? 0)%Z; simpl.
  - tauto.
  - split; [discriminate | intros [_ [_ [_ H]]]; discriminate].
Qed.

Lemma validate_sql_message (self : SQLQueryTool) (sql : str) :
  fst (validate_sql self sql) = true ->
  validate_sql self sql = (true, py "Query validated successfully").
Proof.
  intros H. pose proof H as H'. apply validate_sql_admits in H'.
  destruct H' as [H1 [H2 [H3 H4]]].
  unfold validate_sql. now rewrite H1, H2, H3, H4.
Qed.

(** A forbidden pattern that is found rejects the statement; after SELECT
    the message names the first pattern of the list that is found. *)
Lemma forbidden_hit (sql : str) (pattern : Re.regex) :
  In pattern (forbidden_patterns (init path)) ->
  Re.search pattern (sql_upper sql) = true ->
  fst (validate_sql (init path) sql) = false /\
  (Py.startswith (py "SELECT") (sql_upper sql) = true ->
   exists first,
     find (fun p => Re.search p (sql_upper sql)) (forbidden_patterns (init path))
       = Some first /\
     validate_sql (init path) sql
       = (false, py "Forbidden SQL pattern detected: " ++ Re.source first)).
Proof.
  intros Hin Hs.
  destruct (find_first _ (fun p => Re.search p (sql_upper sql)) _ _ Hin Hs)
    as [first [Hf _]].
  unfold validate_sql. rewrite Hf.
  destruct (Py.startswith (py "SELECT") (sql_upper sql)); simpl.
  - split; [reflexivity|]. intros _. now exists first.
  - split; [reflexivity | discriminate].
Qed.

End Validator.

(** C2 as stated fails: a forbidden word inside a longer identifier is in
    the upper-cased text, and the statement is admitted. *)
Lemma forbidden_word_in_identifier_admitted :
  Py.contains (py "UPDATE")
    (Py.upper (py "SELECT MAX(txn_date) AS updated FROM transactions")) = true /\
  validate_sql tool (py "SELECT MAX(txn_date) AS updated FROM transactions")
  = (true, py "Query validated successfully").
Proof. split; vm_compute; reflexivity. Qed.

(** C8.  A statement with an odd number of single-quote characters, counted
    in the raw text, is rejected by [validate_sql], whatever else it
    contains. *)
Theorem odd_quote_count_rejected (self : SQLQueryTool) (sql : str) :
  Z.odd (Py.count "'" sql) = true ->
  fst (validate_sql self sql) = false.
Proof.
  intros Hodd.
  destruct (fst (validate_sql self sql)) eqn:E; [|reflexivity].
  apply validate_sql_admits in E. destruct E as [_ [_ [_ E]]].
  apply Z.eqb_eq in E. rewrite Zmod_odd, Hodd in E. discriminate.
Qed.

Lemma odd_quote_count_rejected_witness :
  Z.odd (Py.count "'" (py "SELECT * FROM transactions WHERE cat = 'Loans")) = true /\
  fst (validate_sql tool (py "SELECT * FROM transactions WHERE cat = 'Loans")) = false.
Proof.
  split.
  - reflexivity.
  - apply odd_quote_count_rejected. reflexivity.
Defined.

(** C3, as the code has it.  A statement passes the table rule exactly when
    its text, letter case ignored, contains FROM, one space and the name
    TRANSACTIONS or CLIENT_SUMMARY, wherever that text stands and whatever
    follows it; a statement that does not pass the rule is rejected by
    [validate_sql]. *)
Theorem table_rule_is_a_text_search (path sql : str) :
  (uses_allowed_table (sql_upper sql) = true <->
   Py.contains (py "FROM TRANSACTIONS") (Py.upper sql) = true \/
   Py.contains (py "FROM CLIENT_SUMMARY") (Py.upper sql) = true) /\
  (uses_allowed_table (sql_upper sql) = false ->
   fst (validate_sql (init path) sql) = false).
Proof.
  split.
  - unfold uses_allowed_table, sql_upper. simpl. rewrite orb_false_r, orb_true_iff.
    split.
    + intros [H | H]; [left | right]; now apply contains_strip in H.
    + intros [H | H]; [left | right];
        apply contains_iff in H; destruct H as [a [b ->]].
      * apply (contains_strip_keeps a b (py "ROM TRANSACTION") "F" "S"); reflexivity.
      * apply (contains_strip_keeps a b (py "ROM CLIENT_SUMMAR") "F" "Y"); reflexivity.
  - intros H. destruct (fst (validate_sql (init path) sql)) eqn:E; [|reflexivity].
    apply validate_sql_admits in E. destruct E as [_ [_ [E _]]]. congruence.
Qed.

Lemma table_rule_is_a_text_search_witness :
  uses_allowed_table (sql_upper (py "select * from Client_Summary")) = true /\
  fst (validate_sql tool (py "SELECT * FROM accounts")) = false.
Proof.
  split.
  - apply (table_rule_is_a_text_search (py "transactions.db")).
    right. reflexivity.
  - apply (table_rule_is_a_text_search (py "transactions.db")). reflexivity.
Defined.

(** C3 as stated fails both ways: a FROM clause that names another table
    whose name begins with an allowed name is admitted, and a FROM clause
    that names an allowed table after two spaces is rejected. *)
Lemma table_allowlist_counterexample :
  (spec_from_table (py "SELECT * FROM transactions_archive")
     = Some (py "transactions_archive") /\
   spec_allowed_table (py "transactions_archive") = false /\
   validate_sql tool (py "SELECT * FROM transactions_archive")
     = (true, py "Query validated successfully")) /\
  (spec_from_table (py "SELECT * FROM  transactions") = Some (py "transactions") /\
   spec_allowed_table (py "transactions") = true /\
   uses_allowed_table (sql_upper (py "SELECT * FROM  transactions")) = false /\
   validate_sql tool (py "SELECT * FROM  transactions")
     = (false, py "Query must use 'transactions' or 'client_summary' table")).
Proof. repeat split; vm_compute; reflexivity. Qed.

(** C10.  [validate_sql] gives the same verdict and message when every
    semicolon and double quote of the statement is replaced by a comma: it
    looks at neither character.  The two statements in one string are
    admitted; [execute_query] then hands them to the driver with the cap
    appended, and a failure can only be one that the driver raised. *)
Theorem semicolon_and_double_quote_not_checked (path : str) (st : store) (sql : str) :
  validate_sql (init path) (defuse sql) = validate_sql (init path) sql /\
  validate_sql (init path)
    (py "SELECT * FROM transactions; SELECT * FROM transactions")
    = (true, py "Query validated successfully") /\
  (let (o, trace) :=
     execute_query (init path) st
       (py "SELECT * FROM transactions; SELECT * FROM transactions") in
   match connect st with
   | Some _ => executed trace = []
   | None =>
       executed trace
       = [py "SELECT * FROM transactions; SELECT * FROM transactions LIMIT 1000"]
   end /\
   match o with
   | Success _ _ _ _ _ => True
   | Failure msg _ _ =>
       exists e, msg = py "SQL Execution Error: " ++ e \/
                 msg = py "Unexpected Error: " ++ e
   end).
Proof.
  split; [apply validate_sql_defuse|]. split; [reflexivity|].
  unfold execute_query.
  change (validate_sql (init path)
            (py "SELECT * FROM transactions; SELECT * FROM transactions"))
    with (true, py "Query validated successfully").
  cbn [negb]. unfold try_block.
  change (limited_sql (init path)
            (py "SELECT * FROM transactions; SELECT * FROM transactions"))
    with (py "SELECT * FROM transactions; SELECT * FROM transactions LIMIT 1000").
  destruct (connect st) as [e|].
  - split; [reflexivity|]. destruct e as [m|m]; simpl; exists m; tauto.
  - destruct (run st _) as [e | d rows].
    + split; [reflexivity|]. destruct e as [m|m]; simpl; exists m; tauto.
    + split; [reflexivity | exact I].
Qed.

(** * The executor *)

Section Executor.

Lemma execute_query_admitted (self : SQLQueryTool) (st : store) (sql : str) :
  fst (validate_sql self sql) = true ->
  execute_query self st sql =
  match try_block self st sql with
  | (inl e, trace) => (handler e sql, trace)
  | (inr o, trace) => (o, trace)
  end.
Proof.
  intros H. unfold execute_query.
  destruct (validate_sql self sql) as [v m]. simpl in H. now subst.
Qed.

Lemma execute_query_rejected (self : SQLQueryTool) (st : store) (sql : str) :
  fst (validate_sql self sql) = false ->
  execute_query self st sql =
  (Failure (py "SQL Validation Failed: " ++ snd (validate_sql self sql)) sql [], []).
Proof.
  intros H. unfold execute_query.
  destruct (validate_sql self sql) as [v m]. simpl in H. now subst.
Qed.

Lemma rev_repeat (c : ascii) (n : nat) : rev (repeat c n) = repeat c n.
Proof.
  induction n as [|n IH]; simpl; [reflexivity|].
  rewrite IH. symmetry. apply repeat_cons.
Qed.

Lemma dropwhile_repeat (p : ascii -> bool) (c : ascii) (n : nat) (s : str) :
  p c = true -> Py.dropwhile p (repeat c n ++ s) = Py.dropwhile p s.
Proof. intros Hc. induction n as [|n IH]; simpl; [reflexivity | now rewrite Hc]. Qed.

(** All the terminators at the very end go. *)
Lemma rstrip_terminators (body : str) (n : nat) :
  endswith (py ";") (Py.rstrip body) = false ->
  Py.rstrip_chars (py ";") (body ++ repeat ";"%char n) = body.
Proof.
  unfold endswith, Py.rstrip, Py.rstrip_chars. rewrite rev_involutive.
  intros H. rewrite rev_app_distr, rev_repeat, dropwhile_repeat by reflexivity.
  rewrite <- (rev_involutive body) at 2. f_equal.
  destruct (rev body) as [|c r]; [reflexivity|].
  simpl in *. unfold Py.mem. simpl.
  destruct (Ascii.eqb_spec c ";") as [->|Hne]; [|reflexivity].
  simpl in H. discriminate.
Qed.


Lemma try_block_trace (self : SQLQueryTool) (st : store) (sql : str) :
  executed (snd (try_block self st sql)) =
  match connect st with
  | Some _ => []
  | None => [limited_sql self sql]
  end.
Proof.
  unfold try_block. destruct (connect st); [reflexivity|].
  destruct (run st (limited_sql self sql)); reflexivity.
Qed.

Lemma execute_query_trace (self : SQLQueryTool) (st : store) (sql : str) :
  fst (validate_sql self sql) = true ->
  snd (execute_query self st sql) = snd (try_block self st sql).
Proof.
  intros H. rewrite (execute_query_admitted self st sql H).
  destruct (try_block self st sql) as [[e|o] trace]; reflexivity.
Qed.



End Executor.


(** C5.  When the validator rejects the statement, [execute_query] returns
    the failure outcome with the validator's reason, the statement as given
    and no rows, and no call reaches the driver: the trace is empty. *)
Theorem rejected_statement_never_reaches_store
        (self : SQLQueryTool) (st : store) (sql : str) :
  fst (validate_sql self sql) = false ->
  execute_query self st sql
  = (Failure (py "SQL Validation Failed: " ++ snd (validate_sql self sql)) sql [],
     []).
Proof. apply execute_query_rejected. Qed.

Lemma rejected_statement_never_reaches_store_witness :
  execute_query tool (sample_store 5) (py "DELETE FROM transactions")
  = (Failure (py "SQL Validation Failed: Only SELECT queries are allowed")
             (py "DELETE FROM transactions") [],
     []).
Proof.
  exact (rejected_statement_never_reaches_store
           tool (sample_store 5) (py "DELETE FROM transactions") eq_refl).
Defined.


(** C4.  For an admitted statement, an exception raised by the driver, when
    connecting or when running the statement, does not leave
    [execute_query]: the result is the failure outcome with a non-empty
    message that carries the driver's text, the statement as given and an
    empty result list. *)
Theorem driver_error_becomes_failure
        (self : SQLQueryTool) (st : store) (sql : str) (e : exn) :
  fst (validate_sql self sql) = true ->
  connect st = Some e \/
  (connect st = None /\ run st (limited_sql self sql) = Raises e) ->
  exists msg,
    fst (execute_query self st sql) = Failure msg sql [] /\
    msg <> [] /\
    match e with
    | SqliteError text => msg = py "SQL Execution Error: " ++ text
    | OtherException text => msg = py "Unexpected Error: " ++ text
    end.
Proof.
  intros Hv He. rewrite (execute_query_admitted self st sql Hv).
  assert (T : fst (try_block self st sql) = inl e).
  { unfold try_block. destruct He as [-> | [-> ->]]; reflexivity. }
  destruct (try_block self st sql) as [r trace]. simpl in T. subst r.
  destruct e as [text | text]; simpl.
  - exists (py "SQL Execution Error: " ++ text). repeat split. discriminate.
  - exists (py "Unexpected Error: " ++ text). repeat split. discriminate.
Qed.

Lemma driver_error_becomes_failure_witness :
  exists msg,
    fst (execute_query tool
           (failing_store (SqliteError (py "no such column: amount")))
           (py "SELECT amount FROM transactions"))
    = Failure msg (py "SELECT amount FROM transactions") [] /\
    msg <> [] /\
    msg = py "SQL Execution Error: no such column: amount".
Proof.
  apply (driver_error_becomes_failure
           tool (failing_store (SqliteError (py "no such column: amount")))
           (py "SELECT amount FROM transactions")
           (SqliteError (py "no such column: amount"))).
  - reflexivity.
  - right. split; reflexivity.
Defined.

(** C9.  When an admitted statement runs and the driver returns no row,
    [execute_query] returns a success outcome with an empty result list, an
    empty list of column names, row count 0 and the limited flag off; with
    at least one row the column names are those of the driver's
    description. *)
Theorem empty_result_is_success
        (path : str) (st : store) (sql : str) (description : list str)
        (rows : list (list sqlval)) :
  fst (validate_sql (init path) sql) = true ->
  connect st = None ->
  run st (limited_sql (init path) sql) = Rows description rows ->
  (rows = [] ->
   fst (execute_query (init path) st sql) = Success sql [] [] 0 false) /\
  (rows <> [] ->
   exists res n lim,
     fst (execute_query (init path) st sql) = Success sql res description n lim).
Proof.
  intros Hv Hc Hr. rewrite (execute_query_admitted _ st sql Hv).
  unfold try_block. rewrite Hc, Hr. split.
  - intros ->. reflexivity.
  - intros Hne. destruct rows as [|r rows]; [contradiction|].
    simpl. eauto.
Qed.

Lemma empty_result_is_success_witness :
  fst (execute_query tool (sample_store 0)
         (py "SELECT * FROM transactions WHERE clnt_id = 9999"))
  = Success (py "SELECT * FROM transactions WHERE clnt_id = 9999") [] [] 0 false.
Proof.
  exact (proj1 (empty_result_is_success
                  (py "transactions.db") (sample_store 0)
                  (py "SELECT * FROM transactions WHERE clnt_id = 9999")
                  [py "clnt_id"] [] eq_refl eq_refl eq_refl) eq_refl).
Defined.

(** * Further checks of the embedding against the source *)

(** The pattern trees print to the pattern texts of [__init__]. *)
Example forbidden_patterns_source :
  map Re.source (forbidden_patterns tool) =
  [py "DROP\s+"; py "DELETE\s+"; py "INSERT\s+"; py "UPDATE\s+"; py "ALTER\s+";
   py "CREATE\s+"; py "EXEC\s+"; py "UNION\s+"; py "--"; py "/\*"; py "xp_"; py "sp_"].
Proof. reflexivity. Qed.

Example allowed_patterns_source :
  map Re.source (allowed_patterns tool) =
  [py "^SELECT\s+"; py "\s+FROM\s+transactions\s*";
   py "\s+FROM\s+client_summary\s*"; py "\s+WHERE\s+"; py "\s+GROUP\s+BY\s+";
   py "\s+ORDER\s+BY\s+"; py "\s+LIMIT\s+\d+"; py "\s+COUNT\s*\(";
   py "\s+SUM\s*\("; py "\s+AVG\s*\("; py "\s+MIN\s*\("; py "\s+MAX\s*\("].
Proof. reflexivity. Qed.

Example limit_clause_pattern_is_allowed_pattern :
  nth_error (allowed_patterns tool) 6 = Some limit_clause_pattern.
Proof. reflexivity. Qed.

(** The patterns [xp_] and [sp_] are written in lower case and are looked
    for in the upper-cased text, where they cannot occur. *)
Example lower_case_patterns_never_found :
  validate_sql tool (py "SELECT xp_cmdshell FROM transactions")
  = (true, py "Query validated successfully").
Proof. vm_compute. reflexivity. Qed.

(** A terminator that is followed by white space stays, because the
    terminators are stripped before the white space; the cap then lands
    behind it. *)
Example terminator_before_white_space_kept :
  sql_clean (py "SELECT * FROM transactions; ") = py "SELECT * FROM transactions;" /\
  limited_sql tool (py "SELECT * FROM transactions; ")
  = py "SELECT * FROM transactions; LIMIT 1000".
Proof. split; vm_compute; reflexivity. Qed.

(** The sample store with 1500 rows: the cap is appended, 1000 rows come
    back and the flag is on; with 5 rows the flag is off. *)
Example cap_enforcement :
  (let o := fst (execute_query tool (sample_store 1500) (py "SELECT * FROM transactions")) in
   List.length (results o) = 1000%nat /\
   exists q r c, o = Success q r c 1000 true) /\
  (let o := fst (execute_query tool (sample_store 5) (py "SELECT * FROM transactions")) in
   List.length (results o) = 5%nat /\
   exists q r c, o = Success q r c 5 false).
Proof.
  split; split; try (vm_compute; reflexivity).
  - vm_compute. do 3 eexists. reflexivity.
  - vm_compute. do 3 eexists. reflexivity.
Qed.

(** [dict(row)] looks every key up by name, letter case ignored, so a second
    column whose name differs only in case repeats the first value. *)
Example dict_of_row_case :
  dict_of_row [py "a"; py "A"; py "b"] [SqlInt 1; SqlInt 2; SqlInt 3]
  = [(py "a", SqlInt 1); (py "A", SqlInt 1); (py "b", SqlInt 3)].
Proof. reflexivity. Qed.

(** * More about trimming *)

Section Trimming.

Lemma dropwhile_all (p : ascii -> bool) (a x : str) :
  forallb p a = true -> Py.dropwhile p (a ++ x) = Py.dropwhile p x.
Proof.
  induction a as [|c a IH]; simpl; [reflexivity|].
  intros H. apply andb_true_iff in H. destruct H as [Hc Ha]. now rewrite Hc, IH.
Qed.

Lemma dropwhile_head (p : ascii -> bool) (s : str) (c : ascii) :
  hd_error (Py.dropwhile p s) = Some c -> p c = false.
Proof.
  induction s as [|d s IH]; simpl; [discriminate|].
  destruct (p d) eqn:Hd; [exact IH|]. simpl. intros H. now injection H as <-.
Qed.

Lemma dropwhile_id (p : ascii -> bool) (s : str) :
  (forall c, hd_error s = Some c -> p c = false) -> Py.dropwhile p s = s.
Proof.
  destruct s as [|c s]; simpl; [reflexivity|].
  intros H. now rewrite (H c eq_refl).
Qed.

(** [strip] returns the middle of any split into white space, a text that
    neither begins nor ends with white space, and white space. *)
Lemma strip_unique (l m r : str) :
  forallb Py.isspace l = true -> forallb Py.isspace r = true ->
  (forall c, hd_error m = Some c -> Py.isspace c = false) ->
  (forall d, hd_error (rev m) = Some d -> Py.isspace d = false) ->
  Py.strip (l ++ m ++ r) = m.
Proof.
  intros Hl Hr Hh Ht. unfold Py.strip, Py.lstrip, Py.rstrip.
  rewrite !rev_app_distr, <- app_assoc.
  rewrite dropwhile_all by now rewrite forallb_rev.
  destruct (rev m) as [|d t] eqn:E.
  - assert (m = []) as ->.
    { rewrite <- (rev_involutive m), E. reflexivity. }
    simpl. rewrite <- (app_nil_r (rev l)), dropwhile_all by now rewrite forallb_rev.
    reflexivity.
  - simpl. rewrite (Ht d eq_refl).
    change (d :: t ++ rev l) with ((d :: t) ++ rev l).
    rewrite <- E, <- rev_app_distr, rev_involutive.
    rewrite dropwhile_all by exact Hl. now apply dropwhile_id.
Qed.

Lemma strip_head (s : str) (c : ascii) :
  hd_error (Py.strip s) = Some c -> Py.isspace c = false.
Proof. apply dropwhile_head. Qed.

Lemma strip_last (s : str) (d : ascii) :
  hd_error (rev (Py.strip s)) = Some d -> Py.isspace d = false.
Proof.
  unfold Py.strip, Py.lstrip, Py.rstrip.
  set (u := Py.dropwhile Py.isspace (rev s)).
  destruct (dropwhile_split Py.isspace (rev u)) as [a [Ha _]].
  intros H.
  assert (Hu : rev (rev u) = rev (Py.dropwhile Py.isspace (rev u)) ++ rev a).
  { rewrite Ha at 1. apply rev_app_distr. }
  rewrite rev_involutive in Hu.
  destruct (rev (Py.dropwhile Py.isspace (rev u))) as [|d' t]; [discriminate|].
  simpl in H. injection H as ->.
  apply (dropwhile_head Py.isspace (rev s)). fold u. now rewrite Hu.
Qed.

(** White space around a text does not change what [strip] returns. *)
Lemma strip_pad (l s r : str) :
  forallb Py.isspace l = true -> forallb Py.isspace r = true ->
  Py.strip (l ++ s ++ r) = Py.strip s.
Proof.
  intros Hl Hr.
  destruct (strip_split s) as [l' [r' [Hs [Hl' Hr']]]].
  rewrite Hs at 1.
  replace (l ++ (l' ++ Py.strip s ++ r') ++ r)
    with ((l ++ l') ++ Py.strip s ++ (r' ++ r)) by now rewrite <- !app_assoc.
  apply strip_unique.
  - now rewrite forallb_app, Hl, Hl'.
  - now rewrite forallb_app, Hr, Hr'.
  - apply strip_head.
  - apply strip_last.
Qed.

Lemma upper_isspace (c : ascii) : Py.isspace (Py.upper_char c) = Py.isspace c.
Proof. destruct c as [[] [] [] [] [] [] [] []]; reflexivity. Qed.

Lemma upper_quote (c : ascii) : Ascii.eqb (Py.upper_char c) "'" = Ascii.eqb c "'".
Proof. destruct c as [[] [] [] [] [] [] [] []]; reflexivity. Qed.

Lemma upper_spaces (l : str) :
  forallb Py.isspace (Py.upper l) = forallb Py.isspace l.
Proof.
  induction l as [|c l IH]; simpl; [reflexivity|]. now rewrite upper_isspace, IH.
Qed.

Lemma count_quote_upper (s : str) : Py.count "'" (Py.upper s) = Py.count "'" s.
Proof.
  induction s as [|c s IH]; simpl; [reflexivity|]. now rewrite upper_quote, IH.
Qed.

Lemma count_quote_spaces (l : str) :
  forallb Py.isspace l = true -> Py.count "'" l = 0%Z.
Proof.
  induction l as [|c l IH]; simpl; [reflexivity|].
  intros H. apply andb_true_iff in H. destruct H as [Hc Hl]. rewrite (IH Hl).
  destruct (Ascii.eqb_spec c "'") as [->|]; [discriminate | reflexivity].
Qed.

End Trimming.

(** X1.  White space before and after a statement does not change the
    verdict of [validate_sql] nor its message. *)
Theorem validate_sql_ignores_outer_space (self : SQLQueryTool) (l sql r : str) :
  forallb Py.isspace l = true -> forallb Py.isspace r = true ->
  validate_sql self (l ++ sql ++ r) = validate_sql self sql.
Proof.
  intros Hl Hr.
  assert (U : sql_upper (l ++ sql ++ r) = sql_upper sql).
  { unfold sql_upper. rewrite !upper_app.
    apply strip_pad; now rewrite upper_spaces. }
  assert (Q : Py.count "'" (l ++ sql ++ r) = Py.count "'" sql).
  { rewrite !count_app, (count_quote_spaces l Hl), (count_quote_spaces r Hr). lia. }
  unfold validate_sql. now rewrite U, Q.
Qed.

Lemma validate_sql_ignores_outer_space_witness :
  validate_sql tool (py "   SELECT * FROM transactions  ")
  = validate_sql tool (py "SELECT * FROM transactions").
Proof.
  exact (validate_sql_ignores_outer_space tool (py "   ")
           (py "SELECT * FROM transactions") (py "  ") eq_refl eq_refl).
Defined.

(** X2.  Two statements that differ only in letter case get the same
    verdict and message from [validate_sql]. *)
Theorem validate_sql_ignores_letter_case (self : SQLQueryTool) (a b : str) :
  Py.upper a = Py.upper b -> validate_sql self a = validate_sql self b.
Proof.
  intros H.
  assert (Q : Py.count "'" a = Py.count "'" b).
  { now rewrite <- (count_quote_upper a), <- (count_quote_upper b), H. }
  unfold validate_sql, sql_upper. now rewrite H, Q.
Qed.

Lemma validate_sql_ignores_letter_case_witness :
  validate_sql tool (py "select * from Transactions where cat = 'Loans'")
  = validate_sql tool (py "SELECT * FROM TRANSACTIONS WHERE CAT = 'LOANS'").
Proof.
  exact (validate_sql_ignores_letter_case tool
           (py "select * from Transactions where cat = 'Loans'")
           (py "SELECT * FROM TRANSACTIONS WHERE CAT = 'LOANS'") eq_refl).
Defined.

(** * More about the validator *)

Section DeadPatterns.

Lemma upper_never_x (c : ascii) : Ascii.eqb "x" (Py.upper_char c) = false.
Proof. destruct c as [[] [] [] [] [] [] [] []]; reflexivity. Qed.

Lemma upper_never_s (c : ascii) : Ascii.eqb "s" (Py.upper_char c) = false.
Proof. destruct c as [[] [] [] [] [] [] [] []]; reflexivity. Qed.

Lemma absent_in_upper (k : ascii) (s : str) :
  (forall c, Ascii.eqb k (Py.upper_char c) = false) ->
  existsb (Ascii.eqb k) (Py.upper s) = false.
Proof.
  intros H. induction s as [|c s IH]; simpl; [reflexivity|]. now rewrite H, IH.
Qed.

Lemma absent_in_sql_upper (k : ascii) (sql : str) :
  (forall c, Ascii.eqb k (Py.upper_char c) = false) ->
  existsb (Ascii.eqb k) (sql_upper sql) = false.
Proof.
  intros H. pose proof (absent_in_upper k sql H) as A.
  destruct (strip_split (Py.upper sql)) as [l [r [E _]]].
  rewrite E, !existsb_app, !orb_false_iff in A. unfold sql_upper. tauto.
Qed.

(** A pattern whose first character does not occur in the text is not
    found. *)
Lemma search_first_absent (k : ascii) (its : list (Re.cls * Re.quant)) (t : str) :
  existsb (Ascii.eqb k) t = false ->
  Re.search_from ((Re.Chr k, Re.Once) :: its) t = false.
Proof.
  induction t as [|c t IH]; simpl; [reflexivity|].
  intros H. apply orb_false_iff in H. destruct H as [Hc Ht].
  now rewrite Hc, (IH Ht).
Qed.

Lemma find_app_dead (A : Type) (f : A -> bool) (l1 l2 : list A) :
  (forall x, In x l2 -> f x = false) -> find f (l1 ++ l2) = find f l1.
Proof.
  intros H. induction l1 as [|x l1 IH]; simpl.
  - destruct (find f l2) as [y|] eqn:E; [|reflexivity].
    apply find_some in E. destruct E as [Hin Hy]. rewrite (H y Hin) in Hy. discriminate.
  - destruct (f x); [reflexivity | exact IH].
Qed.

Lemma find_none_all (A : Type) (f : A -> bool) (l : list A) :
  (forall x, In x l -> f x = false) -> find f l = None.
Proof.
  intros H. rewrite <- (app_nil_l l). now rewrite find_app_dead.
Qed.

End DeadPatterns.

(** X3.  The patterns [xp_] and [sp_] are never found, whatever the
    statement: the text searched is upper case and holds neither a lower-case
    x nor a lower-case s.  The validator with these two patterns taken off
    the list gives the same verdict and message on every statement. *)
Theorem lower_case_patterns_reject_nothing (path sql : str) :
  Re.search (Re.unanchored (Re.lit "xp_")) (sql_upper sql) = false /\
  Re.search (Re.unanchored (Re.lit "sp_")) (sql_upper sql) = false /\
  validate_sql
    (mk_tool path (allowed_patterns (init path))
             (firstn 10 (forbidden_patterns (init path)))
             (max_results (init path))) sql
  = validate_sql (init path) sql.
Proof.
  assert (X : Re.search (Re.unanchored (Re.lit "xp_")) (sql_upper sql) = false).
  { apply (search_first_absent "x"), absent_in_sql_upper, upper_never_x. }
  assert (S : Re.search (Re.unanchored (Re.lit "sp_")) (sql_upper sql) = false).
  { apply (search_first_absent "s"), absent_in_sql_upper, upper_never_s. }
  split; [exact X|]. split; [exact S|].
  unfold validate_sql. cbn [forbidden_patterns].
  change (forbidden_patterns (init path))
    with (firstn 10 (forbidden_patterns (init path))
          ++ [Re.unanchored (Re.lit "xp_"); Re.unanchored (Re.lit "sp_")]).
  rewrite (find_app_dead _ (fun pattern => Re.search pattern (sql_upper sql))).
  - reflexivity.
  - intros p [<- | [<- | []]]; assumption.
Qed.



(** * More about the executor *)

Section Traces.

Lemma limited_sql_mentions_limit (self : SQLQueryTool) (sql : str) :
  Py.contains (py "LIMIT") (Py.upper (limited_sql self sql)) = true.
Proof.
  unfold limited_sql.
  destruct (Py.contains (py "LIMIT") (Py.upper (sql_clean sql))) eqn:E; simpl.
  - exact E.
  - rewrite !upper_app. apply contains_iff.
    exists (Py.upper (sql_clean sql) ++ py " "),
           (py " " ++ Py.upper (Py.str_of_int (max_results self))).
    now list_norm.
Qed.

Lemma execute_query_executed (self : SQLQueryTool) (st : store) (sql : str) :
  executed (snd (execute_query self st sql)) =
  if fst (validate_sql self sql) then
    match connect st with
    | Some _ => []
    | None => [limited_sql self sql]
    end
  else [].
Proof.
  destruct (fst (validate_sql self sql)) eqn:Hv.
  - now rewrite (execute_query_trace self st sql Hv), try_block_trace.
  - now rewrite (execute_query_rejected self st sql Hv).
Qed.

End Traces.

(** X5.  Whatever statement [execute_query] hands to the driver mentions
    LIMIT (letter case ignored): either the caller's text did, or the cap was
    appended. *)
Theorem executed_statement_mentions_limit
        (self : SQLQueryTool) (st : store) (sql q : str) :
  In q (executed (snd (execute_query self st sql))) ->
  q = limited_sql self sql /\ Py.contains (py "LIMIT") (Py.upper q) = true.
Proof.
  rewrite execute_query_executed.
  destruct (fst (validate_sql self sql)); [|intros []].
  destruct (connect st); [intros []|].
  intros [<- | []]. split; [reflexivity | apply limited_sql_mentions_limit].
Qed.

Lemma executed_statement_mentions_limit_witness :
  Py.contains (py "LIMIT")
    (Py.upper (py "SELECT * FROM client_summary WHERE clnt_id = 2 LIMIT 1000")) = true.
Proof.
  exact (proj2 (executed_statement_mentions_limit tool (sample_store 1)
                  (py "SELECT * FROM client_summary WHERE clnt_id = 2;")
                  (py "SELECT * FROM client_summary WHERE clnt_id = 2 LIMIT 1000")
                  (or_introl eq_refl))).
Defined.

(** X6.  The store is reached exactly when the validator admits the
    statement: the trace is empty on rejection and begins with the
    connection to [db_path] on admission; no call of [execute_query] runs
    more than one statement. *)
Theorem store_reached_iff_admitted (self : SQLQueryTool) (st : store) (sql : str) :
  (fst (validate_sql self sql) = false <-> snd (execute_query self st sql) = []) /\
  (fst (validate_sql self sql) = true <->
   exists rest, snd (execute_query self st sql) = Connect (db_path self) :: rest) /\
  (List.length (executed (snd (execute_query self st sql))) <= 1)%nat.
Proof.
  assert (A : fst (validate_sql self sql) = true ->
              exists rest, snd (execute_query self st sql)
                           = Connect (db_path self) :: rest).
  { intros Hv. rewrite (execute_query_trace self st sql Hv). unfold try_block.
    destruct (connect st); [eexists; reflexivity|].
    destruct (run st (limited_sql self sql)); eexists; reflexivity. }
  assert (R : fst (validate_sql self sql) = false ->
              snd (execute_query self st sql) = []).
  { intros Hv. now rewrite (execute_query_rejected self st sql Hv). }
  split; [|split].
  - split; [exact R|]. intros E.
    destruct (fst (validate_sql self sql)); [|reflexivity].
    destruct (A eq_refl) as [rest Hr]. congruence.
  - split; [exact A|]. intros [rest E].
    destruct (fst (validate_sql self sql)); [reflexivity|].
    rewrite (R eq_refl) in E. discriminate.
  - rewrite execute_query_executed.
    destruct (fst (validate_sql self sql)); [|simpl; lia].
    destruct (connect st); simpl; lia.
Qed.

Lemma store_reached_iff_admitted_witness :
  snd (execute_query tool (sample_store 5) (py "UPDATE transactions SET amt = 0")) = [].
Proof.
  exact (proj1 (proj1 (store_reached_iff_admitted tool (sample_store 5)
                         (py "UPDATE transactions SET amt = 0"))) eq_refl).
Defined.

(** X7.  The connection is closed exactly when the outcome is a success: on
    every path on which the driver raises, [execute_query] returns without
    closing the connection it opened. *)
Theorem connection_closed_iff_success (self : SQLQueryTool) (st : store) (sql : str) :
  In Close (snd (execute_query self st sql)) <->
  success (fst (execute_query self st sql)) = true.
Proof.
  destruct (fst (validate_sql self sql)) eqn:Hv.
  - rewrite (execute_query_admitted self st sql Hv). unfold try_block.
    destruct (connect st) as [e|].
    + destruct e; simpl; (split; [intros [H|[]]; discriminate | discriminate]).
    + destruct (run st (limited_sql self sql)) as [e | d rows].
      * destruct e; simpl;
          (split; [intros [H|[H|[]]]; discriminate | discriminate]).
      * simpl. split; [reflexivity | tauto].
  - rewrite (execute_query_rejected self st sql Hv). simpl.
    split; [intros [] | discriminate].
Qed.

Lemma connection_closed_iff_success_witness :
  ~ In Close
      (snd (execute_query tool (failing_store (SqliteError (py "no such column: x")))
              (py "SELECT x FROM transactions"))).
Proof.
  intros H.
  pose proof (proj1 (connection_closed_iff_success tool
                       (failing_store (SqliteError (py "no such column: x")))
                       (py "SELECT x FROM transactions")) H) as E.
  discriminate E.
Defined.

(** X8.  Every outcome carries the statement exactly as it was given, not
    the cleaned or capped text, and every failure outcome has an empty
    result list and a non-empty error message. *)
Theorem outcome_carries_statement (self : SQLQueryTool) (st : store) (sql : str) :
  query (fst (execute_query self st sql)) = sql /\
  (success (fst (execute_query self st sql)) = false ->
   results (fst (execute_query self st sql)) = [] /\
   exists e, error (fst (execute_query self st sql)) = Some e /\ e <> []).
Proof.
  destruct (fst (validate_sql self sql)) eqn:Hv.
  - rewrite (execute_query_admitted self st sql Hv). unfold try_block.
    destruct (connect st) as [e|].
    + destruct e; simpl; (split; [reflexivity|]); intros _;
        (split; [reflexivity|]); eexists; (split; [reflexivity | discriminate]).
    + destruct (run st (limited_sql self sql)) as [e | d rows].
      * destruct e; simpl; (split; [reflexivity|]); intros _;
          (split; [reflexivity|]); eexists; (split; [reflexivity | discriminate]).
      * simpl. split; [reflexivity | discriminate].
  - rewrite (execute_query_rejected self st sql Hv). simpl.
    split; [reflexivity|]. intros _. split; [reflexivity|].
    eexists. split; [reflexivity | discriminate].
Qed.

Lemma outcome_carries_statement_witness :
  results (fst (execute_query tool (failing_store (OtherException (py "disk I/O error")))
                  (py "SELECT * FROM transactions;"))) = [].
Proof.
  exact (proj1 (proj2 (outcome_carries_statement tool
                  (failing_store (OtherException (py "disk I/O error")))
                  (py "SELECT * FROM transactions;")) eq_refl)).
Defined.

(** * Construction *)

(** X9.  A tool is only ever constructed on a path for which
    [Path(db_path).exists()] holds, and it has the cap 1000.  A path that is
    given is taken as it is; without one, the path is the first of the three
    candidate locations that [os.path.exists] accepts.  Construction fails
    when none of the three exists. *)
Theorem constructed_tool_has_existing_store
        (fs : filesystem) (current_dir : str) (given : option str) :
  (forall self,
     SQLQueryTool_init fs current_dir given = Constructed self ->
     self = init (db_path self) /\
     max_results self = 1000%Z /\
     Path_exists fs (db_path self) = true /\
     match given with
     | Some p => db_path self = p
     | None => find (os_path_exists fs) (db_paths current_dir) = Some (db_path self)
     end) /\
  (given = None ->
   (forall p, In p (db_paths current_dir) -> os_path_exists fs p = false) ->
   SQLQueryTool_init fs current_dir given
   = FileNotFoundError (py "Could not find transactions.db in expected locations")).
Proof.
  split.
  - intros self H. unfold SQLQueryTool_init in H.
    destruct given as [p|].
    + destruct (Path_exists fs p) eqn:E; simpl in H; [|discriminate].
      injection H as <-. simpl. auto.
    + destruct (find (os_path_exists fs) (db_paths current_dir)) as [p|] eqn:F;
        [|discriminate].
      destruct (Path_exists fs p) eqn:E; simpl in H; [|discriminate].
      injection H as <-. simpl. auto.
  - intros -> Hn. unfold SQLQueryTool_init.
    now rewrite (find_none_all _ _ _ Hn).
Qed.

Lemma constructed_tool_has_existing_store_witness :
  SQLQueryTool_init
    (mk_filesystem (fun _ => false) (fun _ => true)) (py "/app/src") None
  = FileNotFoundError (py "Could not find transactions.db in expected locations").
Proof.
  exact (proj2 (constructed_tool_has_existing_store
                  (mk_filesystem (fun _ => false) (fun _ => true)) (py "/app/src") None)
               eq_refl (fun _ _ => eq_refl)).
Defined.

(** * The statements of [set_client] *)

Section IntText.

Lemma uint_digits (u : Decimal.uint) :
  forallb Re.isdigit (py (NilEmpty.string_of_uint u)) = true.
Proof. induction u; simpl; auto. Qed.

Lemma nilzero_digits (u : Decimal.uint) :
  forallb Re.isdigit (py (NilZero.string_of_uint u)) = true /\
  py (NilZero.string_of_uint u) <> [].
Proof.
  destruct u; simpl;
    (split; [try reflexivity; apply uint_digits | discriminate]).
Qed.

(** [str(n)]: an optional minus sign, then at least one digit. *)
Lemma str_of_int_shape (n : Z) :
  exists sign ds,
    Py.str_of_int n = sign ++ ds /\ (sign = [] \/ sign = ["-"%char]) /\
    ds <> [] /\ forallb Re.isdigit ds = true.
Proof.
  unfold Py.str_of_int. destruct (Z.to_int n) as [u|u];
    destruct (nilzero_digits u) as [D N].
  - exists [], (py (NilZero.string_of_uint u)). simpl. auto.
  - exists ["-"%char], (py (NilZero.string_of_uint u)). simpl. auto.
Qed.

Lemma digits_numeric (ds : str) :
  forallb Re.isdigit ds = true -> forallb numeric_char ds = true.
Proof.
  induction ds as [|c ds IH]; simpl; [reflexivity|].
  intros H. apply andb_true_iff in H. destruct H as [Hc Hd].
  unfold numeric_char at 1. now rewrite Hc, (IH Hd).
Qed.

Lemma str_of_int_numeric (n : Z) : forallb numeric_char (Py.str_of_int n) = true.
Proof.
  destruct (str_of_int_shape n) as [sign [ds [-> [[-> | ->] [_ D]]]]]; simpl;
    now apply digits_numeric.
Qed.

Lemma upper_numeric_char (c : ascii) : numeric_char c = true -> Py.upper_char c = c.
Proof.
  destruct c as [[] [] [] [] [] [] [] []]; intros H;
    first [reflexivity | discriminate H].
Qed.

Lemma space_numeric_char (c : ascii) : numeric_char c = true -> Py.isspace c = false.
Proof.
  destruct c as [[] [] [] [] [] [] [] []]; intros H;
    first [reflexivity | discriminate H].
Qed.

Lemma upper_numeric (d : str) : forallb numeric_char d = true -> Py.upper d = d.
Proof.
  induction d as [|c d IH]; simpl; [reflexivity|].
  intros H. apply andb_true_iff in H. destruct H as [Hc Hd].
  now rewrite (upper_numeric_char c Hc), (IH Hd).
Qed.

Lemma absent_in_class (p : ascii -> bool) (k : ascii) (d : str) :
  p k = false -> forallb p d = true -> existsb (Ascii.eqb k) d = false.
Proof.
  intros Hk. induction d as [|c d IH]; simpl; [reflexivity|].
  intros H. apply andb_true_iff in H. destruct H as [Hc Hd].
  rewrite (IH Hd), orb_false_r.
  destruct (Ascii.eqb_spec k c) as [->|]; [congruence | reflexivity].
Qed.

Lemma count_quote_numeric (d : str) :
  forallb numeric_char d = true -> Py.count "'" d = 0%Z.
Proof.
  induction d as [|c d IH]; simpl; [reflexivity|].
  intros H. apply andb_true_iff in H. destruct H as [Hc Hd]. rewrite (IH Hd).
  destruct (Ascii.eqb_spec c "'") as [->|]; [discriminate | reflexivity].
Qed.

Lemma last_numeric (P d : str) (z : ascii) :
  d <> [] -> forallb numeric_char d = true ->
  hd_error (rev (P ++ d)) = Some z -> numeric_char z = true.
Proof.
  intros Hn Hd. rewrite rev_app_distr.
  destruct (rev d) as [|z' t] eqn:E.
  - exfalso. apply Hn. rewrite <- (rev_involutive d), E. reflexivity.
  - simpl. intros H. injection H as <-.
    rewrite <- forallb_rev, E in Hd. simpl in Hd.
    now apply andb_true_iff in Hd.
Qed.

Lemma str_of_int_nonempty (n : Z) : Py.str_of_int n <> [].
Proof.
  destruct (str_of_int_shape n) as [sign [ds [-> [_ [N _]]]]].
  intros H. apply app_eq_nil in H. tauto.
Qed.

(** No two minus signs in a row. *)
Lemma str_of_int_no_comment (n : Z) :
  Re.search_from (Re.lits (py "--")) (Py.str_of_int n) = false.
Proof.
  destruct (str_of_int_shape n) as [sign [ds [-> [S [N D]]]]].
  assert (A : Re.search_from (Re.lits (py "--")) ds = false).
  { apply (search_first_absent "-"), (absent_in_class Re.isdigit);
      [reflexivity | exact D]. }
  destruct S as [-> | ->]; [exact A|].
  change (["-"%char] ++ ds) with ("-"%char :: ds).
  cbn [Re.search_from]. rewrite A, orb_false_r.
  destruct ds as [|c ds]; [reflexivity|]. simpl in D.
  apply andb_true_iff in D. destruct D as [Dc _].
  change (Re.match_here (Re.lits (py "--")) ("-"%char :: c :: ds))
    with (Ascii.eqb "-" "-" && (Ascii.eqb "-" c && true)).
  destruct (Ascii.eqb_spec "-" c) as [<-|]; [discriminate | reflexivity].
Qed.

Variable path : str.
Variable P : str.
Variable first : ascii.
Variable P' : str.
Hypothesis P_first : P = first :: P'.
Hypothesis first_not_space : Py.isspace (Py.upper_char first) = false.
Hypothesis P_select : forall d, Py.startswith (py "SELECT") (Py.upper P ++ d) = true.
Hypothesis P_table : forall d, uses_allowed_table (Py.upper P ++ d) = true.
Hypothesis P_quotes : Py.count "'" P = 0%Z.
Hypothesis P_forbidden :
  forall d, Forall (fun p => Re.search p (Py.upper P ++ d)
                             = Re.search_from (Re.items p) d)
                   (forbidden_patterns (init path)).
Hypothesis P_limit :
  forall d, Py.contains (py "LIMIT") (Py.upper P ++ d) = Py.contains (py "LIMIT") d.

Lemma padded_trimmed (Q : str) (c : ascii) (Q' : str) (n : Z) :
  Q = c :: Q' -> Py.isspace c = false ->
  Py.strip (Q ++ Py.str_of_int n) = Q ++ Py.str_of_int n.
Proof.
  intros -> Hc.
  rewrite <- (app_nil_r ((c :: Q') ++ Py.str_of_int n)) at 1.
  apply (strip_unique [] _ []); try reflexivity.
  - simpl. intros c' H. now injection H as <-.
  - intros z H. apply space_numeric_char.
    apply (last_numeric (c :: Q') (Py.str_of_int n) z);
      [apply str_of_int_nonempty | apply str_of_int_numeric | exact H].
Qed.

Lemma numbered_trimmed (n : Z) : Py.strip (P ++ Py.str_of_int n) = P ++ Py.str_of_int n.
Proof.
  apply (padded_trimmed P first P' n P_first).
  rewrite <- upper_isspace. exact first_not_space.
Qed.

Lemma numbered_sql_upper (n : Z) :
  sql_upper (P ++ Py.str_of_int n) = Py.upper P ++ Py.str_of_int n.
Proof.
  unfold sql_upper.
  rewrite upper_app, (upper_numeric (Py.str_of_int n)) by apply str_of_int_numeric.
  apply (padded_trimmed (Py.upper P) (Py.upper_char first) (Py.upper P') n).
  - now rewrite P_first.
  - exact first_not_space.
Qed.

Lemma numbered_clean (n : Z) :
  sql_clean (P ++ Py.str_of_int n) = P ++ Py.str_of_int n.
Proof.
  unfold sql_clean, Py.rstrip_chars. rewrite dropwhile_id.
  - rewrite rev_involutive. apply numbered_trimmed.
  - intros z H.
    pose proof (last_numeric P _ z (str_of_int_nonempty n) (str_of_int_numeric n) H) as Z.
    unfold Py.mem. simpl.
    destruct (Ascii.eqb_spec z ";") as [->|]; [discriminate | reflexivity].
Qed.

(** A statement that ends with the decimal text of an integer. *)
Lemma numbered_statement (n : Z) :
  validate_sql (init path) (P ++ Py.str_of_int n)
  = (true, py "Query validated successfully") /\
  limited_sql (init path) (P ++ Py.str_of_int n)
  = (P ++ Py.str_of_int n) ++ py " LIMIT 1000".
Proof.
  pose proof (str_of_int_numeric n) as Num.
  split.
  - apply validate_sql_message, validate_sql_admits.
    rewrite numbered_sql_upper. repeat split.
    + apply P_select.
    + apply find_none_all. intros p Hp.
      pose proof (P_forbidden (Py.str_of_int n)) as F.
      rewrite Forall_forall in F. rewrite (F p Hp).
      simpl in Hp.
      repeat (destruct Hp as [<- | Hp];
              [first [ apply str_of_int_no_comment
                     | apply search_first_absent, (absent_in_class numeric_char);
                       [reflexivity | exact Num] ] |]).
      contradiction.
    + apply P_table.
    + rewrite count_app, P_quotes, (count_quote_numeric _ Num). reflexivity.
  - unfold limited_sql. rewrite numbered_clean.
    rewrite upper_app, (upper_numeric _ Num), P_limit.
    assert (L : Py.contains (py "LIMIT") (Py.str_of_int n) = false).
    { destruct (Py.contains (py "LIMIT") (Py.str_of_int n)) eqn:E; [|reflexivity].
      apply contains_iff in E. destruct E as [a [b E]].
      pose proof (absent_in_class numeric_char "L" _ eq_refl Num) as A.
      rewrite E, !existsb_app in A. simpl in A.
      rewrite orb_true_r in A. discriminate. }
    rewrite L. reflexivity.
Qed.

End IntText.

Lemma set_client_statements_ok (path : str) (client_id : Z) :
  (validate_sql (init path) (count_query client_id)
   = (true, py "Query validated successfully") /\
   limited_sql (init path) (count_query client_id)
   = count_query client_id ++ py " LIMIT 1000") /\
  (validate_sql (init path) (summary_query client_id)
   = (true, py "Query validated successfully") /\
   limited_sql (init path) (summary_query client_id)
   = summary_query client_id ++ py " LIMIT 1000").
Proof.
  split.
  - eapply (numbered_statement path _ "S"%char); try reflexivity.
    intros d. repeat constructor.
  - eapply (numbered_statement path _ "S"%char); try reflexivity.
    + intros d. unfold uses_allowed_table. cbn [existsb].
      apply orb_true_iff. right. reflexivity.
    + intros d. repeat constructor.
Qed.

(** X10.  For every integer client id, negative ones included, the two
    statements that [set_client] builds are admitted by [validate_sql], and
    what reaches the driver is the statement followed by " LIMIT 1000". *)
Theorem set_client_statements_admitted (path : str) (client_id : Z) :
  (validate_sql (init path) (count_query client_id)
   = (true, py "Query validated successfully") /\
   limited_sql (init path) (count_query client_id)
   = count_query client_id ++ py " LIMIT 1000") /\
  (validate_sql (init path) (summary_query client_id)
   = (true, py "Query validated successfully") /\
   limited_sql (init path) (summary_query client_id)
   = summary_query client_id ++ py " LIMIT 1000").
Proof.
  split.
  - eapply (numbered_statement path _ "S"%char); try reflexivity.
    intros d. repeat constructor.
  - eapply (numbered_statement path _ "S"%char); try reflexivity.
    + intros d. unfold uses_allowed_table. cbn [existsb].
      apply orb_true_iff. right. reflexivity.
    + intros d. repeat constructor.
Qed.

(** * The assistant *)

Section SetClient.

Lemma execute_query_rows (self : SQLQueryTool) (st : store) (sql : str)
      (d : list str) (rows : list (list sqlval)) :
  fst (validate_sql self sql) = true -> connect st = None ->
  run st (limited_sql self sql) = Rows d rows ->
  success (fst (execute_query self st sql)) = true /\
  results (fst (execute_query self st sql)) = map (dict_of_row d) rows.
Proof.
  intros Hv Hc Hr. rewrite (execute_query_admitted self st sql Hv).
  unfold try_block. rewrite Hc, Hr. split; reflexivity.
Qed.

Lemma execute_query_success (self : SQLQueryTool) (st : store) (sql : str) :
  success (fst (execute_query self st sql)) = true ->
  executed (snd (execute_query self st sql)) = [limited_sql self sql] /\
  exists d rows,
    run st (limited_sql self sql) = Rows d rows /\
    results (fst (execute_query self st sql)) = map (dict_of_row d) rows.
Proof.
  intros H. rewrite execute_query_executed.
  destruct (fst (validate_sql self sql)) eqn:Hv.
  2: { rewrite (execute_query_rejected self st sql Hv) in H. discriminate. }
  rewrite (execute_query_admitted self st sql Hv) in *. unfold try_block in *.
  destruct (connect st) as [e|]; [destruct e; discriminate|].
  split; [reflexivity|].
  destruct (run st (limited_sql self sql)) as [e | d rows];
    [destruct e; discriminate|].
  now exists d, rows.
Qed.

End SetClient.

(** X11.  [set_client] can answer False and still have switched the current
    client: when the count statement finds transactions for the id but the
    summary statement fails or returns no row, the answer is False and
    [current_client_id] is the new id. *)
Theorem set_client_false_after_switching
        (path : str) (print_summary : Z -> dict -> option py_exc)
        (self : LLMSQLAssistant) (st : store) (client_id : Z)
        (d1 : list str) (r1 : list sqlval) (rest1 : list (list sqlval)) (k : Z) :
  sql_tool self = init path ->
  connect st = None ->
  run st (count_query client_id ++ py " LIMIT 1000") = Rows d1 (r1 :: rest1) ->
  dict_get (py "count") (dict_of_row d1 r1) = Some (SqlInt k) ->
  (0 < k)%Z ->
  (forall d2 r2 rest2,
     run st (summary_query client_id ++ py " LIMIT 1000") <> Rows d2 (r2 :: rest2)) ->
  fst (fst (set_client print_summary self st client_id)) = inr false /\
  current_client_id (snd (fst (set_client print_summary self st client_id)))
  = Some client_id.
Proof.
  intros Ht Hc Hr1 Hk Hpos Hr2.
  destruct (set_client_statements_ok path client_id) as [[V1 L1] [V2 L2]].
  assert (V1' : fst (validate_sql (init path) (count_query client_id)) = true)
    by now rewrite V1.
  rewrite <- L1 in Hr1.
  destruct (execute_query_rows _ st _ d1 (r1 :: rest1) V1' Hc Hr1) as [S1 R1].
  pose proof (execute_query_success (init path) st (summary_query client_id)) as X.
  rewrite L2 in X.
  unfold set_client. cbn [sql_tool with_client_id]. rewrite Ht.
  destruct (execute_query (init path) st (summary_query client_id)) as [o2 t2].
  destruct (execute_query (init path) st (count_query client_id)) as [o1 t1].
  cbn [fst snd] in S1, R1, X.
  rewrite S1, R1. cbn [negb map]. rewrite Hk. cbn [gt_int].
  apply Z.ltb_lt in Hpos. rewrite Hpos.
  destruct (success o2) eqn:S2.
  - destruct (X eq_refl) as [_ [d2 [rows2 [Hrun Hres]]]].
    rewrite Hres.
    destruct rows2 as [|r2 rest2]; [split; reflexivity|].
    exfalso. exact (Hr2 d2 r2 rest2 Hrun).
  - split; reflexivity.
Qed.

Lemma set_client_false_after_switching_witness :
  fst (fst (set_client no_print_error (mk_assistant tool None None)
              store_without_summary 2)) = inr false /\
  current_client_id
    (snd (fst (set_client no_print_error (mk_assistant tool None None)
                 store_without_summary 2))) = Some 2%Z.
Proof.
  apply (set_client_false_after_switching (py "transactions.db") no_print_error
           (mk_assistant tool None None) store_without_summary 2
           [py "count"] [SqlInt 3] [] 3).
  - reflexivity.
  - reflexivity.
  - reflexivity.
  - reflexivity.
  - reflexivity.
  - intros d2 r2 rest2 H. discriminate H.
Defined.

Lemma set_client_effect_holds
        (print_summary : Z -> dict -> option py_exc)
        (self : LLMSQLAssistant) (st : store) (client_id : Z) :
  let r := set_client print_summary self st client_id in
  sql_tool (snd (fst r)) = sql_tool self /\
  client (snd (fst r)) = client self /\
  (current_client_id (snd (fst r)) = current_client_id self \/
   current_client_id (snd (fst r)) = Some client_id) /\
  (fst (fst r) = inr true ->
   current_client_id (snd (fst r)) = Some client_id /\
   executed (snd r)
   = [limited_sql (sql_tool self) (count_query client_id);
      limited_sql (sql_tool self) (summary_query client_id)]).
Proof.
  pose proof (execute_query_success (sql_tool self) st (count_query client_id)) as X1.
  pose proof (execute_query_success (sql_tool self) st (summary_query client_id)) as X2.
  unfold set_client. cbn [sql_tool with_client_id].
  destruct (execute_query (sql_tool self) st (count_query client_id)) as [o1 t1].
  destruct (execute_query (sql_tool self) st (summary_query client_id)) as [o2 t2].
  remember (limited_sql (sql_tool self) (count_query client_id)) as q1.
  remember (limited_sql (sql_tool self) (summary_query client_id)) as q2.
  remember (py "count") as key.
  clear Heqq1 Heqq2 Heqkey. cbn [fst snd] in X1, X2.
  assert (A : forall a b, executed (a ++ b) = executed a ++ executed b).
  { induction a as [|ev a IH]; intros b; simpl; [reflexivity|].
    destruct ev; simpl; now rewrite IH. }
  destruct (success o1) eqn:S1; simpl.
  2: { repeat split; auto; congruence. }
  destruct (X1 eq_refl) as [T1 _].
  destruct (results o1) as [|first rest]; simpl.
  { repeat split; auto; congruence. }
  destruct (dict_get key first) as [v|]; simpl.
  2: { repeat split; auto; congruence. }
  destruct (gt_int v 0) as [e | [|]]; simpl.
  { repeat split; auto; congruence. }
  2: { repeat split; auto; congruence. }
  destruct (success o2) eqn:S2; simpl.
  2: { repeat split; auto; congruence. }
  destruct (X2 eq_refl) as [T2 _].
  destruct (results o2) as [|summary rest2]; simpl.
  { repeat split; auto; congruence. }
  destruct (print_summary client_id summary); simpl.
  { repeat split; auto; congruence. }
  repeat split; auto.
  now rewrite A, T1, T2.
Qed.

(** X12.  [set_client] never replaces the tool or the language-model
    client, and the current client afterwards is the old one or the id
    asked for.  When it answers True, the current client is that id and
    both statements were run, in order, each with the cap appended by the
    tool. *)
Theorem set_client_effect
        (print_summary : Z -> dict -> option py_exc)
        (self : LLMSQLAssistant) (st : store) (client_id : Z) :
  let r := set_client print_summary self st client_id in
  sql_tool (snd (fst r)) = sql_tool self /\
  client (snd (fst r)) = client self /\
  (current_client_id (snd (fst r)) = current_client_id self \/
   current_client_id (snd (fst r)) = Some client_id) /\
  (fst (fst r) = inr true ->
   current_client_id (snd (fst r)) = Some client_id /\
   executed (snd r)
   = [limited_sql (sql_tool self) (count_query client_id);
      limited_sql (sql_tool self) (summary_query client_id)]).
Proof.
  pose proof (execute_query_success (sql_tool self) st (count_query client_id)) as X1.
  pose proof (execute_query_success (sql_tool self) st (summary_query client_id)) as X2.
  unfold set_client. cbn [sql_tool with_client_id].
  destruct (execute_query (sql_tool self) st (count_query client_id)) as [o1 t1].
  destruct (execute_query (sql_tool self) st (summary_query client_id)) as [o2 t2].
  remember (limited_sql (sql_tool self) (count_query client_id)) as q1.
  remember (limited_sql (sql_tool self) (summary_query client_id)) as q2.
  remember (py "count") as key.
  clear Heqq1 Heqq2 Heqkey. cbn [fst snd] in X1, X2.
  assert (A : forall a b, executed (a ++ b) = executed a ++ executed b).
  { induction a as [|ev a IH]; intros b; simpl; [reflexivity|].
    destruct ev; simpl; now rewrite IH. }
  destruct (success o1) eqn:S1; simpl.
  2: { repeat split; auto; congruence. }
  destruct (X1 eq_refl) as [T1 _].
  destruct (results o1) as [|first rest]; simpl.
  { repeat split; auto; congruence. }
  destruct (dict_get key first) as [v|]; simpl.
  2: { repeat split; auto; congruence. }
  destruct (gt_int v 0) as [e | [|]]; simpl.
  { repeat split; auto; congruence. }
  2: { repeat split; auto; congruence. }
  destruct (success o2) eqn:S2; simpl.
  2: { repeat split; auto; congruence. }
  destruct (X2 eq_refl) as [T2 _].
  destruct (results o2) as [|summary rest2]; simpl.
  { repeat split; auto; congruence. }
  destruct (print_summary client_id summary); simpl.
  { repeat split; auto; congruence. }
  repeat split; auto.
  now rewrite A, T1, T2.
Qed.

Lemma set_client_effect_witness :
  current_client_id
    (snd (fst (set_client no_print_error (mk_assistant tool None None)
                 store_with_summary 0))) = Some 0%Z /\
  executed (snd (set_client no_print_error (mk_assistant tool None None)
                   store_with_summary 0))
  = [py "SELECT COUNT(*) as count FROM transactions WHERE clnt_id = 0 LIMIT 1000";
     py "SELECT * FROM client_summary WHERE clnt_id = 0 LIMIT 1000"].
Proof.
  exact (proj2 (proj2 (proj2 (set_client_effect no_print_error
           (mk_assistant tool None None) store_with_summary 0))) eq_refl).
Defined.

Section Generation.

Lemma generate_sql_success_client (loads : str -> loads_result)
      (self : LLMSQLAssistant) (q : str) (v e : json) :
  generate_sql loads self q = GenSuccess v e -> exists c, client self = Some c.
Proof.
  unfold generate_sql. destruct (client self) as [c|]; [|discriminate].
  intros _. now exists c.
Qed.

Lemma generate_sql_unselected (loads : str -> loads_result)
      (self : LLMSQLAssistant) (q : str) :
  current_client_id self = None \/ current_client_id self = Some 0%Z ->
  generate_sql loads self q = GenFailure (py "OpenAI API not available") \/
  generate_sql loads self q
  = GenFailure (py "No client selected. Please select a client first.").
Proof.
  unfold generate_sql. intros H. destruct (client self); [right | now left].
  destruct H as [-> | ->]; reflexivity.
Qed.

End Generation.

(** X13.  Client id 0 counts as no client.  After [set_client] has accepted
    the id 0, [process_query] still refuses every question with the
    generation error (no client selected, or no language model), without
    generating a statement and without a call to the store. *)
Theorem client_zero_is_treated_as_unselected
        (loads : str -> loads_result) (fmt : formatter)
        (print_summary : Z -> dict -> option py_exc)
        (self self' : LLMSQLAssistant) (st st' : store) (trace : list event)
        (user_query : str) :
  set_client print_summary self st 0 = (inr true, self', trace) ->
  exists e,
    (e = py "OpenAI API not available" \/
     e = py "No client selected. Please select a client first.") /\
    process_query loads fmt self' st' user_query
    = (inr {| qr_success := false;
              qr_query := user_query;
              qr_sql_generated := None;
              qr_sql_results := None;
              qr_natural_response := py "Could not generate SQL: " ++ e;
              qr_error := Some e |},
       []).
Proof.
  intros H.
  pose proof (set_client_effect_holds print_summary self st 0) as E.
  rewrite H in E. simpl in E. destruct E as [_ [_ [_ E]]].
  destruct (E eq_refl) as [C _].
  unfold process_query.
  destruct (generate_sql_unselected loads self' user_query (or_intror C)) as [-> | ->];
    eexists; (split; [|reflexivity]); tauto.
Qed.

Lemma client_zero_is_treated_as_unselected_witness :
  exists e,
    (e = py "OpenAI API not available" \/
     e = py "No client selected. Please select a client first.") /\
    process_query no_json plain_formatter
      (mk_assistant tool (Some 0%Z) (Some (fixed_client (py "SELECT 1"))))
      store_with_summary (py "How much did I spend?")
    = (inr {| qr_success := false;
              qr_query := py "How much did I spend?";
              qr_sql_generated := None;
              qr_sql_results := None;
              qr_natural_response := py "Could not generate SQL: " ++ e;
              qr_error := Some e |},
       []).
Proof.
  apply (client_zero_is_treated_as_unselected no_json plain_formatter no_print_error
           (mk_assistant tool None (Some (fixed_client (py "SELECT 1"))))
           _ store_with_summary store_with_summary
           (snd (set_client no_print_error
                   (mk_assistant tool None (Some (fixed_client (py "SELECT 1"))))
                   store_with_summary 0))).
  vm_compute. reflexivity.
Defined.

(** X14.  When the reply of the language model parses to a JSON object
    whose sql entry is missing or is not a string, [generate_sql] reports
    success, and [process_query] then fails with an AttributeError raised
    by [validate_sql]; the store is not reached. *)
Theorem generated_sql_that_is_no_string_raises
        (loads : str -> loads_result) (fmt : formatter)
        (self : LLMSQLAssistant) (st : store) (user_query : str)
        (c : openai_client) (id : Z) (content : str) (d : list (str * json)) :
  client self = Some c ->
  current_client_id self = Some id ->
  id <> 0%Z ->
  complete_sql c id user_query = inr content ->
  loads (Py.strip content) = Loaded (JDict d) ->
  (forall s, json_get (py "sql") d JNull <> JStr s) ->
  generate_sql loads self user_query
  = GenSuccess (json_get (py "sql") d JNull) (json_get (py "explanation") d (JStr [])) /\
  process_query loads fmt self st user_query
  = (inl (AttributeError (py "'" ++ type_name (json_get (py "sql") d JNull)
                          ++ py "' object has no attribute 'upper'")),
     []).
Proof.
  intros Hc Hid Hnz Hr Hl Hs.
  assert (G : generate_sql loads self user_query
              = GenSuccess (json_get (py "sql") d JNull)
                           (json_get (py "explanation") d (JStr []))).
  { unfold generate_sql. rewrite Hc, Hid.
    apply Z.eqb_neq in Hnz. rewrite Hnz, Hr, Hl. reflexivity. }
  split; [exact G|].
  unfold process_query. rewrite G.
  destruct (json_get (py "sql") d JNull) as [| | | |s| |]; try reflexivity.
  exfalso. exact (Hs s eq_refl).
Qed.

Lemma generated_sql_that_is_no_string_raises_witness :
  process_query loads_without_sql plain_formatter
    (mk_assistant tool (Some 2%Z) (Some (fixed_client (py "{}"))))
    (sample_store 5) (py "How much did I spend?")
  = (inl (AttributeError (py "'NoneType' object has no attribute 'upper'")), []).
Proof.
  apply (generated_sql_that_is_no_string_raises
           loads_without_sql plain_formatter
           (mk_assistant tool (Some 2%Z) (Some (fixed_client (py "{}"))))
           (sample_store 5) (py "How much did I spend?")
           (fixed_client (py "{}")) 2 (py "{}")
           [(py "explanation", JStr (py "total spending"))]).
  - reflexivity.
  - reflexivity.
  - discriminate.
  - reflexivity.
  - reflexivity.
  - intros s H. discriminate H.
Defined.

(** X15.  What [process_query] returns when it returns: the question as
    asked; success exactly when there is no error; on failure an error that
    the response shown to the user repeats; and no statement generated
    means no call to the store. *)
Theorem process_query_result_shape
        (loads : str -> loads_result) (fmt : formatter)
        (self : LLMSQLAssistant) (st : store) (user_query : str)
        (r : QueryResult) (trace : list event) :
  process_query loads fmt self st user_query = (inr r, trace) ->
  qr_query r = user_query /\
  (qr_success r = true <-> qr_error r = None) /\
  (qr_success r = false ->
   exists e,
     qr_error r = Some e /\
     (qr_natural_response r = py "Could not generate SQL: " ++ e \/
      qr_natural_response r = py "I couldn't process your query due to an error: " ++ e)) /\
  (qr_sql_generated r = None -> trace = [] /\ qr_sql_results r = None) /\
  (forall s, qr_sql_generated r = Some s ->
             qr_sql_results r = Some (fst (execute_query (sql_tool self) st s)) /\
             trace = snd (execute_query (sql_tool self) st s)).
Proof.
  unfold process_query.
  destruct (generate_sql loads self user_query) as [e | v expl] eqn:G.
  - intros H. injection H as <- <-. simpl. repeat split; try discriminate.
    intros _. exists e. split; [reflexivity | now left].
  - destruct (generate_sql_success_client _ _ _ _ _ G) as [c Hc].
    destruct v as [| | | |s| |]; try discriminate.
    destruct (execute_query (sql_tool self) st s) as [o t] eqn:E.
    unfold generate_natural_response. rewrite Hc.
    destruct o as [err q res | q res cols n lim].
    + intros H. injection H as <- <-. simpl.
      repeat split; try discriminate.
      * intros _. exists err. split; [reflexivity | now right].
      * injection H as <-. now rewrite E.
      * injection H as <-. now rewrite E.
    + destruct res as [|row res].
      * intros H. injection H as <- <-. simpl.
        repeat split; try discriminate; try reflexivity;
          injection H as <-; now rewrite E.
      * destruct (negb (json_serializable (row :: res))); [discriminate|].
        destruct (complete_answer c user_query (row :: res));
          intros H; injection H as <- <-; simpl;
          repeat split; try discriminate; try reflexivity;
          injection H as <-; now rewrite E.
Qed.

Lemma process_query_result_shape_witness :
  process_query no_json plain_formatter
    (mk_assistant tool (Some 2%Z) (Some (fixed_client (py "SELECT * FROM accounts"))))
    (sample_store 5) (py "Show my accounts")
  = (inr {| qr_success := false;
            qr_query := py "Show my accounts";
            qr_sql_generated := Some (py "SELECT * FROM accounts");
            qr_sql_results :=
              Some (Failure
                      (py "SQL Validation Failed: Query must use 'transactions' or 'client_summary' table")
                      (py "SELECT * FROM accounts") []);
            qr_natural_response :=
              py "I couldn't process your query due to an error: SQL Validation Failed: Query must use 'transactions' or 'client_summary' table";
            qr_error :=
              Some (py "SQL Validation Failed: Query must use 'transactions' or 'client_summary' table") |},
     []) /\
  (false = true <->
   Some (py "SQL Validation Failed: Query must use 'transactions' or 'client_summary' table")
   = None).
Proof.
  assert (H : process_query no_json plain_formatter
    (mk_assistant tool (Some 2%Z) (Some (fixed_client (py "SELECT * FROM accounts"))))
    (sample_store 5) (py "Show my accounts")
  = (inr {| qr_success := false;
            qr_query := py "Show my accounts";
            qr_sql_generated := Some (py "SELECT * FROM accounts");
            qr_sql_results :=
              Some (Failure
                      (py "SQL Validation Failed: Query must use 'transactions' or 'client_summary' table")
                      (py "SELECT * FROM accounts") []);
            qr_natural_response :=
              py "I couldn't process your query due to an error: SQL Validation Failed: Query must use 'transactions' or 'client_summary' table";
            qr_error :=
              Some (py "SQL Validation Failed: Query must use 'transactions' or 'client_summary' table") |},
     [])).
  { vm_compute. reflexivity. }
  split; [exact H|].
  exact (proj1 (proj2 (process_query_result_shape _ _ _ _ _ _ _ H))).
Defined.

(** * The recovery of a statement from a reply that is not JSON *)

Section Extraction.

Lemma startswith_before (sep : ascii) (w x b : str) :
  existsb (Ascii.eqb sep) w = false ->
  Py.startswith w (x ++ sep :: b) = true -> Py.startswith w x = true.
Proof.
  revert x; induction w as [|k w IH]; intros x Hw H; [reflexivity|].
  simpl in Hw. apply orb_false_iff in Hw. destruct Hw as [Hk Hw].
  destruct x as [|c x]; simpl in H |- *; apply andb_true_iff in H; destruct H as [H1 H2].
  - apply Ascii.eqb_eq in H1. subst. rewrite Ascii.eqb_refl in Hk. discriminate.
  - rewrite H1. exact (IH x Hw H2).
Qed.

(** A text without the separator is found on one side of it. *)
Lemma contains_across (sep : ascii) (w a b : str) :
  existsb (Ascii.eqb sep) w = false ->
  Py.contains w (a ++ sep :: b) = true ->
  Py.contains w a = true \/ Py.contains w b = true.
Proof.
  intros Hw. induction a as [|c a IH]; intros H.
  - change ([] ++ sep :: b) with (sep :: b) in H.
    cbn [Py.contains] in H. apply orb_true_iff in H. destruct H as [H | H].
    + left. apply (startswith_before sep w [] b Hw) in H.
      cbn [Py.contains]. now rewrite H.
    + now right.
  - change ((c :: a) ++ sep :: b) with (c :: (a ++ sep :: b)) in H.
    cbn [Py.contains] in H. apply orb_true_iff in H. destruct H as [H | H].
    + left. apply (startswith_before sep w (c :: a) b Hw) in H.
      cbn [Py.contains]. now rewrite H.
    + destruct (IH H) as [Ha | Hb]; [left | now right].
      cbn [Py.contains]. rewrite Ha. apply orb_true_r.
Qed.

Lemma upper_newline : Py.upper_char newline = newline.
Proof. reflexivity. Qed.

(** A text that the whole reply holds, letter case ignored, is held by one
    of its lines. *)
Lemma split_on_finds (w : str) :
  existsb (Ascii.eqb newline) w = false ->
  forall s cur,
    Py.contains w (Py.upper (rev cur ++ s)) = true ->
    exists line, In line (split_on newline cur s) /\
                 Py.contains w (Py.upper line) = true.
Proof.
  intros Hw. induction s as [|c s IH]; intros cur H.
  - rewrite app_nil_r in H. exists (rev cur). split; [now left | exact H].
  - cbn [split_on]. destruct (Ascii.eqb_spec c newline) as [-> | Hc].
    + rewrite upper_app in H.
      change (Py.upper (newline :: s)) with (newline :: Py.upper s) in H.
      destruct (contains_across newline w _ _ Hw H) as [Ha | Hb].
      * exists (rev cur). split; [now left | exact Ha].
      * destruct (IH [] Hb) as [line [Hin Hl]].
        exists line. split; [now right | exact Hl].
    + apply IH. simpl. now rewrite <- app_assoc.
Qed.

Lemma strip_upper (s : str) : Py.strip (Py.upper s) = Py.upper (Py.strip s).
Proof.
  assert (M : forall t, Py.dropwhile Py.isspace (Py.upper t)
                        = Py.upper (Py.dropwhile Py.isspace t)).
  { induction t as [|c t IH]; simpl; [reflexivity|].
    rewrite upper_isspace. destruct (Py.isspace c); [exact IH | reflexivity]. }
  assert (R : forall t, rev (Py.upper t) = Py.upper (rev t)).
  { intros t. unfold Py.upper. symmetry. apply map_rev. }
  unfold Py.strip, Py.lstrip, Py.rstrip. now rewrite R, M, R, M.
Qed.

End Extraction.

(** X16.  The recovery succeeds exactly when the reply mentions SELECT,
    letter case ignored.  The statement it returns is then a line of the
    reply, the first that mentions SELECT, with the white space around it
    removed, and it still mentions SELECT; otherwise the failure quotes the
    reply. *)
Theorem extract_sql_takes_first_line_with_select (response_text : str) :
  (Py.contains (py "SELECT") (Py.upper response_text) = true ->
   exists line,
     In line (split_on newline [] response_text) /\
     find (fun l => Py.contains (py "SELECT") (Py.upper l))
          (split_on newline [] response_text) = Some line /\
     extract_sql response_text
     = GenSuccess (JStr (Py.strip line)) (JStr (py "SQL extracted from response")) /\
     Py.contains (py "SELECT") (Py.upper (Py.strip line)) = true) /\
  (Py.contains (py "SELECT") (Py.upper response_text) = false ->
   extract_sql response_text
   = GenFailure (py "Could not parse SQL from response: " ++ response_text)).
Proof.
  split; intros H; unfold extract_sql; rewrite H; [|reflexivity].
  destruct (split_on_finds (py "SELECT") eq_refl response_text [] H) as [l0 [Hin0 Hl0]].
  destruct (find_first _ (fun l => Py.contains (py "SELECT") (Py.upper l)) _ _ Hin0 Hl0)
    as [line [Hf [Hin Hl]]].
  exists line. rewrite Hf. repeat split; trivial.
  - destruct line as [|c line]; [discriminate Hl | reflexivity].
  - rewrite <- strip_upper. apply contains_iff in Hl. destruct Hl as [a [b ->]].
    apply (contains_strip_keeps a b (py "ELEC") "S" "T"); reflexivity.
Qed.

Lemma extract_sql_takes_first_line_with_select_witness :
  extract_sql (py "I cannot answer that.")
  = GenFailure (py "Could not parse SQL from response: I cannot answer that.").
Proof.
  exact (proj2 (extract_sql_takes_first_line_with_select (py "I cannot answer that."))
               eq_refl).
Defined.

(** The recovered line need not begin with SELECT: the validator then
    rejects it. *)
Example extracted_line_with_leading_words :
  extract_sql (py "Query: SELECT * FROM transactions")
  = GenSuccess (JStr (py "Query: SELECT * FROM transactions"))
               (JStr (py "SQL extracted from response")) /\
  validate_sql tool (py "Query: SELECT * FROM transactions")
  = (false, py "Only SELECT queries are allowed").
Proof. split; vm_compute; reflexivity. Qed.



(** * The forbidden rule, in both directions *)

Section ForbiddenRule.

Lemma search_slash_star (t : str) :
  Re.search (Re.unanchored [(Re.Chr "/", Re.Once); (Re.Esc "*", Re.Once)]) t
  = Py.contains (py "/*") t.
Proof.
  unfold Re.search, Re.unanchored. cbn [Re.anchored Re.items].
  induction t as [|c t IH]; [reflexivity|].
  cbn [Re.search_from Py.contains]. rewrite IH. reflexivity.
Qed.

(** What each of the first ten patterns looks for. *)
Lemma ten_patterns_meaning (path t : str) :
  (exists p, In p (firstn 10 (forbidden_patterns (init path))) /\
             Re.search p t = true) <->
  (exists w c, In w forbidden_words /\ Py.isspace c = true /\
               Py.contains (w ++ [c]) t = true) \/
  (exists m, In m comment_markers /\ Py.contains m t = true).
Proof.
  split.
  - intros [p [Hp Hs]]. cbn [firstn forbidden_patterns init In] in Hp.
    repeat (destruct Hp as [<- | Hp];
            [unfold Re.lit in Hs; first
               [ apply search_word_space in Hs; destruct Hs as [c [Hc Hs]];
                 left; eexists; exists c; (split; [|split; [exact Hc | exact Hs]]);
                 simpl; tauto
               | rewrite search_lits in Hs; right; eexists;
                 (split; [|exact Hs]); simpl; tauto
               | rewrite search_slash_star in Hs; right; eexists;
                 (split; [|exact Hs]); simpl; tauto ] |]).
    contradiction.
  - intros [[w [c [Hw [Hc Hs]]]] | [m [Hm Hs]]].
    + exists (Re.unanchored (Re.lits w ++ Re.sp1)). split.
      * simpl in Hw. simpl.
        repeat (destruct Hw as [<- | Hw]; [tauto|]). contradiction.
      * apply search_word_space. now exists c.
    + simpl in Hm. destruct Hm as [<- | [<- | []]].
      * exists (Re.unanchored (Re.lits (py "--"))). split; [simpl; tauto|].
        now rewrite search_lits.
      * exists (Re.unanchored [(Re.Chr "/", Re.Once); (Re.Esc "*", Re.Once)]).
        split; [simpl; tauto|]. now rewrite search_slash_star.
Qed.

Lemma firstn_in (A : Type) (n : nat) (l : list A) (x : A) :
  In x (firstn n l) -> In x l.
Proof.
  revert l; induction n as [|n IH]; intros l H; [contradiction|].
  destruct l as [|y l]; [contradiction|]. simpl in H.
  destruct H as [-> | H]; [now left | right; now apply IH].
Qed.

End ForbiddenRule.

(** C2, as the code has it.  One of the first ten forbidden patterns is
    found in the trimmed, upper-cased text exactly when that text holds one
    of the words DROP, DELETE, INSERT, UPDATE, ALTER, CREATE, EXEC, UNION
    followed by a white-space character, or one of the markers [--] and
    [/*]; a word followed by anything else matches none of the ten.  A
    statement in which one is found is rejected by [validate_sql]: when the
    text begins with SELECT the message is "Forbidden SQL pattern
    detected: " followed by the text of the first pattern of the list that
    is found, and otherwise it is "Only SELECT queries are allowed". *)
Theorem forbidden_pattern_rejected (path sql : str) :
  ((exists p, In p (firstn 10 (forbidden_patterns (init path))) /\
              Re.search p (sql_upper sql) = true) <->
   (exists w c, In w forbidden_words /\ Py.isspace c = true /\
                Py.contains (w ++ [c]) (sql_upper sql) = true) \/
   (exists m, In m comment_markers /\ Py.contains m (sql_upper sql) = true)) /\
  ((exists w c, In w forbidden_words /\ Py.isspace c = true /\
                Py.contains (w ++ [c]) (sql_upper sql) = true) \/
   (exists m, In m comment_markers /\ Py.contains m (sql_upper sql) = true) ->
   fst (validate_sql (init path) sql) = false /\
   (Py.startswith (py "SELECT") (sql_upper sql) = true ->
    exists first,
      find (fun p => Re.search p (sql_upper sql)) (forbidden_patterns (init path))
        = Some first /\
      validate_sql (init path) sql
        = (false, py "Forbidden SQL pattern detected: " ++ Re.source first)) /\
   (Py.startswith (py "SELECT") (sql_upper sql) = false ->
    validate_sql (init path) sql = (false, py "Only SELECT queries are allowed"))).
Proof.
  split; [apply ten_patterns_meaning|].
  intros H. apply (proj2 (ten_patterns_meaning path (sql_upper sql))) in H.
  destruct H as [p [Hp Hs]].
  apply firstn_in in Hp.
  destruct (forbidden_hit path sql p Hp Hs) as [Hrej Hmsg].
  split; [exact Hrej|]. split; [exact Hmsg|].
  intros Hsel. unfold validate_sql. now rewrite Hsel.
Qed.

Lemma forbidden_pattern_rejected_witness :
  validate_sql tool (py "SELECT * FROM transactions; drop table transactions")
  = (false, py "Forbidden SQL pattern detected: DROP\s+") /\
  validate_sql tool (py "drop table transactions")
  = (false, py "Only SELECT queries are allowed") /\
  ~ ((exists w c, In w forbidden_words /\ Py.isspace c = true /\
                   Py.contains (w ++ [c])
                     (sql_upper (py "SELECT MAX(txn_date) AS updated FROM transactions"))
                   = true) \/
     (exists m, In m comment_markers /\
                Py.contains m
                  (sql_upper (py "SELECT MAX(txn_date) AS updated FROM transactions"))
                = true)).
Proof.
  split; [|split].
  - destruct (proj2 (forbidden_pattern_rejected (py "transactions.db")
              (py "SELECT * FROM transactions; drop table transactions")))
      as [_ [H _]].
    + left. exists (py "DROP"), " "%char. repeat split. simpl. tauto.
    + destruct (H eq_refl) as [first [Hf Hv]].
      vm_compute in Hf. injection Hf as <-. exact Hv.
  - destruct (proj2 (forbidden_pattern_rejected (py "transactions.db")
              (py "drop table transactions")))
      as [_ [_ H]].
    + left. exists (py "DROP"), " "%char. repeat split. simpl. tauto.
    + exact (H eq_refl).
  - intros H.
    apply (proj2 (proj1 (forbidden_pattern_rejected (py "transactions.db")
              (py "SELECT MAX(txn_date) AS updated FROM transactions")))) in H.
    destruct H as [p [Hp Hs]]. cbn [firstn forbidden_patterns init In] in Hp.
    repeat (destruct Hp as [<- | Hp]; [vm_compute in Hs; discriminate Hs|]).
    contradiction.
Defined.

(** * The clean-up of the statement *)

Section CleanUp.





End CleanUp.



(** * The cap *)

Section Cap.




End Cap.



(** * The dictionaries of the rows *)

Section RowDictionaries.

Lemma py_eqb_eq (a b : str) : Py.eqb a b = true <-> a = b.
Proof.
  revert b; induction a as [|c a IH]; intros [|d b]; simpl;
    try (split; [discriminate | intros H; discriminate H]);
    [split; reflexivity|].
  rewrite andb_true_iff, IH. split.
  - intros [H ->]. apply Ascii.eqb_eq in H. now subst.
  - intros H. injection H as -> ->. split; [apply Ascii.eqb_refl | reflexivity].
Qed.

Lemma py_eqb_refl (a : str) : Py.eqb a a = true.
Proof. now apply py_eqb_eq. Qed.

Lemma py_eqb_neq (a b : str) : a <> b -> Py.eqb a b = false.
Proof.
  intros H. destruct (Py.eqb a b) eqn:E; [|reflexivity].
  apply py_eqb_eq in E. contradiction.
Qed.

Lemma dict_get_set_same (k : str) (v : sqlval) (d : dict) :
  dict_get k (dict_set k v d) = Some v.
Proof.
  induction d as [|[k' v'] d IH]; simpl.
  - now rewrite py_eqb_refl.
  - destruct (Py.eqb k' k) eqn:E; simpl; rewrite E; [reflexivity | exact IH].
Qed.

Lemma dict_get_set_other (k k' : str) (v : sqlval) (d : dict) :
  k <> k' -> dict_get k (dict_set k' v d) = dict_get k d.
Proof.
  intros H. induction d as [|[k0 v0] d IH]; simpl.
  - rewrite py_eqb_neq; [reflexivity | congruence].
  - destruct (Py.eqb k0 k') eqn:E; simpl.
    + apply py_eqb_eq in E. subst k0.
      rewrite py_eqb_neq; [reflexivity | congruence].
    + destruct (Py.eqb k0 k); [reflexivity | exact IH].
Qed.

Lemma step_other (description : list str) (cells : list sqlval)
      (d : dict) (key k : str) :
  key <> k ->
  dict_get key (dict_step description cells d k) = dict_get key d.
Proof.
  intros H. unfold dict_step.
  destruct (row_getitem description cells k); [|reflexivity].
  now apply dict_get_set_other.
Qed.

Lemma fold_step_absent (description : list str) (cells : list sqlval)
      (l : list str) (acc : dict) (key : str) :
  ~ In key l ->
  dict_get key (fold_left (dict_step description cells) l acc) = dict_get key acc.
Proof.
  revert acc; induction l as [|k l IH]; intros acc H; simpl; [reflexivity|].
  rewrite IH by (intros X; apply H; now right).
  apply step_other. intros ->. apply H. now left.
Qed.

Lemma fold_step_present (description : list str) (cells : list sqlval)
      (l : list str) (acc : dict) (key : str) :
  In key l ->
  dict_get key (fold_left (dict_step description cells) l acc)
  = match row_getitem description cells key with
    | Some v => Some v
    | None => dict_get key acc
    end.
Proof.
  revert acc; induction l as [|k l IH]; intros acc H; [contradiction|].
  simpl. destruct (in_dec (list_eq_dec ascii_dec) key l) as [Hl | Hl].
  - rewrite (IH _ Hl).
    destruct (row_getitem description cells key) eqn:R; [reflexivity|].
    destruct (list_eq_dec ascii_dec key k) as [-> | Hk].
    + unfold dict_step. now rewrite R.
    + now apply step_other.
  - destruct H as [-> | H]; [|contradiction].
    rewrite (fold_step_absent description cells l _ key Hl). unfold dict_step.
    destruct (row_getitem description cells key);
      [apply dict_get_set_same | reflexivity].
Qed.

(** Every key of the dictionary of a row holds the cell of the first
    column of that name, letter case ignored; there is no other key. *)
Lemma dict_of_row_lookup (description : list str) (cells : list sqlval) (key : str) :
  (In key description ->
   dict_get key (dict_of_row description cells) = row_getitem description cells key) /\
  (~ In key description -> dict_get key (dict_of_row description cells) = None).
Proof.
  change (dict_of_row description cells)
    with (fold_left (dict_step description cells) description []).
  split; intros H.
  - rewrite (fold_step_present description cells description [] key H).
    now destruct (row_getitem description cells key).
  - now rewrite (fold_step_absent description cells description [] key H).
Qed.

End RowDictionaries.

Section DistinctNames.

Lemma nodup_app_disjoint (A : Type) (l1 l2 : list A) (x : A) :
  NoDup (l1 ++ l2) -> In x l1 -> In x l2 -> False.
Proof.
  induction l1 as [|a l1 IH]; intros ND H1 H2; [contradiction|].
  simpl in ND. apply NoDup_cons_iff in ND. destruct ND as [Na ND].
  destruct H1 as [-> | H1].
  - apply Na. apply in_or_app. now right.
  - now apply IH.
Qed.

Lemma row_getitem_skip (pre : list str) (cpre : list sqlval)
      (rest : list str) (crest : list sqlval) (key : str) :
  List.length pre = List.length cpre ->
  ~ In (Py.upper key) (map Py.upper pre) ->
  row_getitem (pre ++ rest) (cpre ++ crest) key = row_getitem rest crest key.
Proof.
  revert cpre; induction pre as [|k pre IH]; intros [|v cpre] L H;
    try discriminate L; [reflexivity|].
  simpl. rewrite py_eqb_neq.
  - apply IH; [now injection L | intros X; apply H; now right].
  - intros E. apply H. left. exact E.
Qed.

Lemma dict_set_fresh (k : str) (v : sqlval) (d : dict) :
  ~ In k (map fst d) -> dict_set k v d = d ++ [(k, v)].
Proof.
  induction d as [|[k' v'] d IH]; intros H; simpl; [reflexivity|].
  rewrite py_eqb_neq.
  - rewrite IH; [reflexivity | intros X; apply H; now right].
  - intros E. apply H. now left.
Qed.

Lemma combine_keys (pre : list str) (cpre : list sqlval) (k : str) :
  In k (map fst (combine pre cpre)) -> In k pre.
Proof.
  revert cpre; induction pre as [|p pre IH]; intros [|v cpre] H;
    try contradiction.
  simpl in H. destruct H as [-> | H]; [now left | right; now apply (IH cpre)].
Qed.

Lemma combine_snoc (pre : list str) (cpre : list sqlval) (k : str) (v : sqlval) :
  List.length pre = List.length cpre ->
  combine pre cpre ++ [(k, v)] = combine (pre ++ [k]) (cpre ++ [v]).
Proof.
  revert cpre; induction pre as [|p pre IH]; intros [|c cpre] L;
    try discriminate L; [reflexivity|].
  simpl. f_equal. apply IH. now injection L.
Qed.

Lemma combine_exhausted (pre rest : list str) (cpre : list sqlval) :
  List.length pre = List.length cpre ->
  combine (pre ++ rest) cpre = combine pre cpre.
Proof.
  revert cpre; induction pre as [|p pre IH]; intros [|c cpre] L;
    try discriminate L.
  - now destruct rest.
  - simpl. f_equal. apply IH. now injection L.
Qed.

(** With distinct column names the dictionary of a row is the columns and
    the cells, pair by pair. *)
Lemma dict_of_row_distinct (description : list str) (cells : list sqlval) :
  distinct_names description ->
  dict_of_row description cells = combine description cells.
Proof.
  unfold distinct_names. intros ND.
  change (dict_of_row description cells)
    with (fold_left (dict_step description cells) description []).
  set (step := dict_step description cells).
  assert (G : forall rest pre cpre crest,
             description = pre ++ rest -> cells = cpre ++ crest ->
             List.length pre = List.length cpre ->
             fold_left step rest (combine pre cpre) = combine description cells).
  { induction rest as [|k rest IH]; intros pre cpre crest Hd Hc L.
    - simpl. rewrite Hd, Hc, app_nil_r.
      clear -L. revert cpre L; induction pre as [|p pre IH];
        intros [|c cpre] L; try discriminate L; [reflexivity|].
      simpl. f_equal. apply IH. now injection L.
    - assert (Fresh : ~ In (Py.upper k) (map Py.upper pre)).
      { rewrite Hd, map_app in ND. simpl in ND.
        apply NoDup_remove_2 in ND. intros X. apply ND.
        apply in_or_app. now left. }
      assert (R : row_getitem description cells k = hd_error crest).
      { rewrite Hd, Hc, (row_getitem_skip pre cpre _ _ k L Fresh).
        destruct crest as [|v crest]; simpl; [reflexivity|].
        now rewrite py_eqb_refl. }
      simpl. unfold step at 2, dict_step. rewrite R.
      destruct crest as [|v crest]; simpl.
      + assert (N : forall l acc,
                   (forall x, In x l -> row_getitem description cells x = None) ->
                   fold_left step l acc = acc).
        { induction l as [|x l IHl]; intros acc Hn; simpl; [reflexivity|].
          unfold step at 2, dict_step. rewrite (Hn x (or_introl eq_refl)).
          apply IHl. intros y Hy. apply Hn. now right. }
        rewrite N.
        * rewrite Hd, Hc, app_nil_r. symmetry. now apply combine_exhausted.
        * intros x Hx.
          assert (Fx : ~ In (Py.upper x) (map Py.upper pre)).
          { rewrite Hd, map_app in ND. intros X.
            apply (nodup_app_disjoint _ _ _ (Py.upper x) ND X).
            apply in_map. now right. }
          rewrite Hd, Hc, app_nil_r.
          rewrite <- (app_nil_r cpre) at 1.
          rewrite (row_getitem_skip pre cpre _ [] x L Fx).
          now destruct (k :: rest).
      + rewrite dict_set_fresh.
        * rewrite (combine_snoc pre cpre k v L).
          apply (IH (pre ++ [k]) (cpre ++ [v]) crest).
          -- rewrite Hd. now rewrite <- app_assoc.
          -- rewrite Hc. now rewrite <- app_assoc.
          -- rewrite !length_app. simpl. now rewrite L.
        * intros X. apply combine_keys in X. apply Fresh. now apply in_map. }
  exact (G description [] [] cells eq_refl eq_refl eq_refl).
Qed.

Lemma combine_holds_cells (description : list str) (cells : list sqlval) (v : sqlval) :
  List.length description = List.length cells ->
  In v cells -> exists k, In (k, v) (combine description cells).
Proof.
  revert cells; induction description as [|k description IH];
    intros [|c cells] L H; try discriminate L; [contradiction|].
  simpl in H. destruct H as [-> | H].
  - exists k. now left.
  - destruct (IH cells (f_equal pred L) H) as [k' Hk']. exists k'. now right.
Qed.

End DistinctNames.

(** C7, as the code has it.  A success outcome of [execute_query] holds the
    statement as given and one dictionary per row that the driver returned,
    in the driver's order.  The dictionary of a row maps every column name
    to the cell of the first column of that name (letter case ignored) and
    has no other key; with distinct column names it is the columns paired
    with the cells, so it holds every cell of the row.  The outcome also
    holds all the column names of the driver's description (none when there
    is no row), a row count equal to the number of rows, and a limited flag
    that is true exactly when the row count is 1000. *)
Theorem success_outcome_shape
        (path : str) (st : store) (sql q : str) (res : list dict)
        (cols : list str) (n : Z) (lim : bool) :
  fst (execute_query (init path) st sql) = Success q res cols n lim ->
  q = sql /\
  n = Z.of_nat (List.length res) /\
  (lim = true <-> n = 1000%Z) /\
  exists description rows,
    run st (limited_sql (init path) sql) = Rows description rows /\
    cols = match rows with [] => [] | _ :: _ => description end /\
    Forall2
      (fun cells d =>
         (forall key, In key description ->
                      dict_get key d = row_getitem description cells key) /\
         (forall key, ~ In key description -> dict_get key d = None) /\
         (distinct_names description -> d = combine description cells))
      rows res /\
    (distinct_names description ->
     Forall (fun cells => List.length description = List.length cells) rows ->
     holds_row_set rows res).
Proof.
  intros H.
  destruct (fst (validate_sql (init path) sql)) eqn:Hv.
  2: { rewrite (execute_query_rejected _ st sql Hv) in H. discriminate. }
  rewrite (execute_query_admitted _ st sql Hv) in H.
  unfold try_block in H.
  destruct (connect st) as [e|].
  { destruct e; discriminate. }
  destruct (run st (limited_sql (init path) sql)) as [e | d rows] eqn:R.
  { destruct e; discriminate. }
  simpl in H. injection H as <- <- <- <- <-.
  repeat split.
  - intros E. now apply Z.eqb_eq in E.
  - intros E. now apply Z.eqb_eq.
  - exists d, rows. repeat split.
    + clear R. induction rows as [|cells rows IH]; constructor; [|exact IH].
      split; [|split].
      * intros key. apply dict_of_row_lookup.
      * intros key. apply dict_of_row_lookup.
      * apply dict_of_row_distinct.
    + intros ND F. unfold holds_row_set. clear R.
      induction rows as [|cells rows IH]; constructor.
      * intros v Hin. rewrite (dict_of_row_distinct d cells ND).
        apply combine_holds_cells; [|exact Hin].
        now inversion F.
      * apply IH. now inversion F.
Qed.

Lemma success_outcome_shape_witness :
  Forall2 (fun cells d => d = combine [py "clnt_id"] cells)
          (repeat [SqlInt 2] 5) (repeat [(py "clnt_id", SqlInt 2)] 5) /\
  (false = true <-> 5%Z = 1000%Z).
Proof.
  destruct (success_outcome_shape
              (py "transactions.db") (sample_store 5)
              (py "SELECT * FROM transactions") (py "SELECT * FROM transactions")
              (repeat [(py "clnt_id", SqlInt 2)] 5) [py "clnt_id"] 5 false)
    as [_ [_ [Hl [d [rows [R [_ [F _]]]]]]]].
  - vm_compute. reflexivity.
  - split; [|exact Hl].
    vm_compute in R. injection R as <- <-.
    assert (ND : distinct_names [py "clnt_id"]).
    { unfold distinct_names. simpl. constructor; [intros []|constructor]. }
    revert F. apply Forall2_impl. intros cells dct [_ [_ H]]. exact (H ND).
Defined.

(** C7 as stated fails: when two columns of the result have the same name,
    the dictionary of a row keeps one entry for that name and the cell of
    the second column is in no dictionary. *)
Lemma duplicate_column_name_drops_cell :
  fst (execute_query tool self_join_store
         (py "SELECT a.amt, b.amt FROM transactions a, transactions b"))
  = Success (py "SELECT a.amt, b.amt FROM transactions a, transactions b")
            [[(py "amt", SqlInt 1)]] [py "amt"; py "amt"] 1 false /\
  ~ holds_row_set [[SqlInt 1; SqlInt 2]] [[(py "amt", SqlInt 1)]].
Proof.
  split; [vm_compute; reflexivity|].
  intros H. inversion H as [|cells d rows res Hrow Hrest]; subst.
  destruct (Hrow (SqlInt 2)) as [k Hk]; [right; now left|].
  destruct Hk as [Hk | []]. discriminate Hk.
Qed.
